(** * Study planner: the plan generator of [app.py]

    A shallow embedding of [generate_simple_plan] and [pick_hint]
    (src/app.py, lines 624-681) and the properties of the plans they
    produce.

    Python integers are unbounded, so minutes and day numbers are [Z].
    [hours] is a Python float: it is a binary64 value here too (the kernel's
    primitive floats), so [hours * 60] rounds as it does in Python and
    [int(...)] truncates toward zero and raises on NaN and on infinities.
    The [while] loop of the source has no bound of its own; it is run with
    fuel, one unit per iteration, and every topic's loop starts with the
    whole amount. A call that returns with some fuel returns the same plan
    with any larger fuel ([generate_simple_plan_mono]). *)

From Stdlib Require Import ZArith Lia Sorted PrimFloat FloatOps SpecFloat.
From stdpp Require Import base list strings pretty gmap.

Open Scope Z_scope.

(** ** Python values and results *)

(** The exceptions [int] raises on a float that is not finite. *)
Inductive exn := ValueError | OverflowError.

(** What a call does: it returns, it raises, or the fuel ran out while a
    [while] loop was still running. *)
Inductive outcome (A : Type) :=
| Returns (a : A)
| Raises (e : exn)
| OutOfFuel.
Arguments Returns {A} a.
Arguments Raises {A} e.
Arguments OutOfFuel {A}.

(** The [daily_hours] argument, seen through the two builtins the function
    applies to it, truthiness and [float]:
    - [Falsy]: [None], the empty string, the numbers [0] and [0.0], [False],
      an empty list or dict; the conditional expression takes its [else];
    - [NotNumber]: a truthy value on which [float] raises (["abc"], a
      non-empty list, an integer too large for a float); the bare [except]
      catches it;
    - [Number f]: a truthy value on which [float] returns [f]: [1], [1.5],
      ["1.5"], [-1], and also the strings ["0"], ["nan"] and ["inf"]. *)
Inductive hours_arg :=
| Falsy
| NotNumber
| Number (f : float).

(** [int(x)] on a float: truncation toward zero. *)
Definition py_int (x : float) : exn + Z :=
  match Prim2SF x with
  | S754_nan => inl ValueError
  | S754_infinity _ => inl OverflowError
  | S754_zero _ => inr 0
  | S754_finite s m e =>
      let a := Z.shiftl (Z.pos m) e in
      inr (if s then - a else a)
  end.

(** ** The plan *)

(** One entry of the plan: the dict appended in the loop body. *)
Record chunk := Chunk {
  day : string;
  course : string;
  topic : string;
  difficulty : string;
  suggested_minutes : Z;
  ai_hint : string;
  break_after : option Z
}.

(** The [hints] dict of [pick_hint]. The strings hold the UTF-8 bytes of the
    source's literals. *)
Definition hints : gmap string string :=
  {[ "easy" := "Quick win 🎯 - Build confidence with this topic";
     "medium" := "Steady pace 🚀 - Focus on core concepts";
     "hard" := "Deep focus 🔥 - Break into smaller parts" ]}.

(** [hints.get(level, "Stay focused! ⭐")] *)
Definition pick_hint (level : string) : string :=
  default "Stay focused! ⭐" (hints !! level).

(** [f"Day {day}"] *)
Definition day_label (d : Z) : string := "Day " +:+ pretty d.

(** The local variables the two loops share. [used_hist] is a history
    variable the program does not have: every value [used_today] has held,
    oldest first. Nothing reads it. *)
Record locals := Locals {
  plan : list chunk;
  day_no : Z;
  used_today : Z;
  used_hist : list Z
}.

(** [used_today = v] *)
Definition set_used (v : Z) (st : locals) : locals :=
  {| plan := plan st; day_no := day_no st;
     used_today := v; used_hist := used_hist st ++ [v] |}.

(** The [if used_today >= daily_quota] at the head of the loop body. *)
Definition rollover (daily_quota : Z) (st : locals) : locals :=
  if used_today st >=? daily_quota
  then set_used 0 {| plan := plan st; day_no := day_no st + 1;
                     used_today := used_today st; used_hist := used_hist st |}
  else st.

(** One iteration of the [while] body: the new [remaining] and locals. *)
Definition while_body (daily_quota : Z) (crs tpc level : string)
    (remaining : Z) (st : locals) : Z * locals :=
  let st := rollover daily_quota st in
  let chunk := Z.min remaining (daily_quota - used_today st) in
  let remaining := remaining - chunk in
  let st := set_used (used_today st + chunk) st in
  let break_after :=
    if chunk >=? 60 then Some 10 else if chunk >=? 30 then Some 5 else None in
  (remaining,
   {| plan := plan st ++
        [ {| day := day_label (day_no st);
             course := crs;
             topic := tpc;
             difficulty := level;
             suggested_minutes := chunk;
             ai_hint := pick_hint level;
             break_after := break_after |} ];
      day_no := day_no st;
      used_today := used_today st;
      used_hist := used_hist st |}).

(** [while remaining > 0: ...]; [None] when the fuel runs out first. *)
Fixpoint while_loop (fuel : nat) (daily_quota : Z) (crs tpc level : string)
    (remaining : Z) (st : locals) : option locals :=
  if remaining >? 0 then
    match fuel with
    | O => None
    | S fuel =>
        let '(remaining, st) :=
          while_body daily_quota crs tpc level remaining st in
        while_loop fuel daily_quota crs tpc level remaining st
    end
  else Some st.

(** The minutes a topic of difficulty [level] is given. *)
Definition suggested_for (base_minutes : Z) (level : string) : Z :=
  let suggested := base_minutes in
  let suggested :=
    if String.eqb level "easy" then suggested - 5
    else if String.eqb level "hard" then suggested + 10
    else suggested in
  Z.max 15 suggested.

(** [courses[i] if i < len(courses) else "General"] *)
Definition course_at (courses : list string) (i : nat) : string :=
  default "General" (courses !! i).

(** [difficulties[i] if i < len(difficulties) else "medium"] *)
Definition level_at (difficulties : list string) (i : nat) : string :=
  default "medium" (difficulties !! i).

(** [for i, topic in enumerate(topics): ...], from index [i] on. *)
Fixpoint for_loop (fuel : nat) (daily_quota base_minutes : Z)
    (courses difficulties : list string) (i : nat) (topics : list string)
    (st : locals) : option locals :=
  match topics with
  | [] => Some st
  | tpc :: topics =>
      let crs := course_at courses i in
      let level := level_at difficulties i in
      let remaining := suggested_for base_minutes level in
      match while_loop fuel daily_quota crs tpc level remaining st with
      | None => None
      | Some st =>
          for_loop fuel daily_quota base_minutes courses difficulties
            (S i) topics st
      end
  end.

(** The [try]/[except] that opens the function. *)
Definition hours_of (daily_hours : hours_arg) : float :=
  match daily_hours with
  | Falsy => 2%float
  | NotNumber => 2%float
  | Number f => f
  end.

(** [int(hours * 60)] *)
Definition daily_quota_of (daily_hours : hours_arg) : exn + Z :=
  py_int (PrimFloat.mul (hours_of daily_hours) 60%float).

(** The locals as the [for] loop finds them. *)
Definition init_locals : locals :=
  {| plan := []; day_no := 1; used_today := 0; used_hist := [0] |}.

(** The function with its locals at the [return]. *)
Definition run_plan (fuel : nat) (courses topics difficulties : list string)
    (daily_hours : hours_arg) : outcome locals :=
  match daily_quota_of daily_hours with
  | inl e => Raises e
  | inr daily_quota =>
      match topics with
      | [] => (* [return []], before [day] and [used_today] exist *)
          Returns {| plan := []; day_no := 1; used_today := 0;
                     used_hist := [] |}
      | _ :: _ =>
          let base_minutes :=
            Z.max 20 (daily_quota `div` Z.of_nat (length topics)) in
          match for_loop fuel daily_quota base_minutes courses difficulties
                  0 topics init_locals with
          | None => OutOfFuel
          | Some st => Returns st
          end
      end
  end.

Definition generate_simple_plan (fuel : nat)
    (courses topics difficulties : list string) (daily_hours : hours_arg)
    : outcome (list chunk) :=
  match run_plan fuel courses topics difficulties daily_hours with
  | Returns st => Returns (plan st)
  | Raises e => Raises e
  | OutOfFuel => OutOfFuel
  end.

(** ** Measures on plans *)

(** The minutes of a list of chunks, added up. *)
Definition minutes_total (l : list chunk) : Z :=
  foldr (λ c acc, suggested_minutes c + acc) 0 l.

(** The minutes the chunks of [l] put on the day labelled [d]. *)
Definition minutes_on (d : string) (l : list chunk) : Z :=
  minutes_total (filter (λ c, day c = d) l).

(** The change in minutes a difficulty makes to the base share, in the
    words of the specification: -5 for easy, +10 for hard, 0 for anything
    else. [suggested_for_delta] compares it with the source's
    [suggested_for]. *)
Definition level_delta (level : string) : Z :=
  if decide (level = "easy") then -5
  else if decide (level = "hard") then 10
  else 0.

(** The break a chunk should carry, in the words of the specification. *)
Definition break_rule (c : chunk) : Prop :=
  (60 ≤ suggested_minutes c → break_after c = Some 10) ∧
  (30 ≤ suggested_minutes c < 60 → break_after c = Some 5) ∧
  (suggested_minutes c < 30 → break_after c = None).

(** The chunks one topic contributes: they carry the topic's fields, their
    minutes add up to [total], and the first one takes what is left of its
    day after the chunks [before] it, or all of [total] when that fits. *)
Definition topic_block (q : Z) (crs tpc level : string) (total : Z)
    (before blk : list chunk) : Prop :=
  Forall (λ c, course c = crs ∧ topic c = tpc ∧ difficulty c = level ∧
               ai_hint c = pick_hint level) blk ∧
  minutes_total blk = total ∧
  ∃ c rest, blk = c :: rest ∧
    suggested_minutes c = Z.min total (q - minutes_on (day c) before).

(** One block per topic, in the order of the topics, from index [i] on. *)
Fixpoint blocks_spec (q base : Z) (courses difficulties : list string)
    (i : nat) (topics : list string) (before : list chunk)
    (blocks : list (list chunk)) : Prop :=
  match topics, blocks with
  | [], [] => True
  | tpc :: topics, blk :: blocks =>
      topic_block q (course_at courses i) tpc (level_at difficulties i)
        (suggested_for base (level_at difficulties i)) before blk ∧
      blocks_spec q base courses difficulties (S i) topics (before ++ blk)
        blocks
  | _, _ => False
  end.

(** The day numbers behind the labels of a plan: they never go down, none
    is past the current day, and the first is day 1. *)
Definition days_ok (st : locals) : Prop :=
  ∃ ds : list Z,
    map day (plan st) = map day_label ds ∧
    StronglySorted Z.le ds ∧
    Forall (λ d, 1 ≤ d ≤ day_no st) ds ∧
    match ds with
    | [] => day_no st = 1 ∧ used_today st = 0
    | d :: _ => d = 1
    end.

(** The loop invariant under a positive quota [q]. *)
Record inv (q : Z) (st : locals) : Prop := {
  inv_used : 0 ≤ used_today st ≤ q;
  inv_hist : Forall (λ u, 0 ≤ u ≤ q) (used_hist st);
  inv_days : days_ok st;
  inv_on : used_today st = minutes_on (day_label (day_no st)) (plan st);
  inv_chunks : Forall (λ c, 1 ≤ suggested_minutes c ≤ q) (plan st)
}.

(** The chunk an iteration appends, from the locals after the rollover. *)
Definition carved (q : Z) (crs tpc level : string) (r : Z) (st1 : locals)
    : chunk :=
  let m := Z.min r (q - used_today st1) in
  {| day := day_label (day_no st1); course := crs; topic := tpc;
     difficulty := level; suggested_minutes := m;
     ai_hint := pick_hint level;
     break_after :=
       if m >=? 60 then Some 10 else if m >=? 30 then Some 5 else None |}.

(** [max(20, daily_quota // len(topics))] *)
Definition base_of (q : Z) (topics : list string) : Z :=
  Z.max 20 (q `div` Z.of_nat (length topics)).

(** Fuel that is enough for every topic under a positive quota. *)
Definition enough_fuel (q : Z) (topics : list string) : nat :=
  Z.to_nat (Z.max 15 (base_of q topics + 10)).

(** The example of the specification: two hard topics, one hour a day. *)
Definition phys_courses : list string := ["Phys"; "Phys"].
Definition phys_topics : list string := ["Motion"; "Energy"].
Definition phys_levels : list string := ["hard"; "hard"].

Definition phys_chunk (d : string) (tpc : string) (m : Z) (b : option Z)
    : chunk :=
  {| day := d; course := "Phys"; topic := tpc; difficulty := "hard";
     suggested_minutes := m; ai_hint := pick_hint "hard";
     break_after := b |}.

(** What the function returns on it: the second topic gets the 20 minutes
    left of day 1 and its other 20 minutes on day 2. *)
Definition phys_plan : list chunk :=
  [ phys_chunk "Day 1" "Motion" 40 (Some 5);
    phys_chunk "Day 1" "Energy" 20 None;
    phys_chunk "Day 2" "Energy" 20 None ].

(** ** Further measures on plans *)

(** The minutes the topics from index [i] on are given in all. *)
Fixpoint suggested_from (base : Z) (difficulties : list string) (i : nat)
    (topics : list string) : Z :=
  match topics with
  | [] => 0
  | _ :: topics =>
      suggested_for base (level_at difficulties i)
      + suggested_from base difficulties (S i) topics
  end.

(** How the loops fill the days: the days before the current one are full,
    the current one holds [used_today] minutes, the last chunk is on the
    current day, and the days that occur are 1 to the current day. *)
Record packed (q : Z) (st : locals) : Prop := {
  packed_total :
    minutes_total (plan st) = (day_no st - 1) * q + used_today st;
  packed_full :
    ∀ d, 1 ≤ d < day_no st → minutes_on (day_label d) (plan st) = q;
  packed_last :
    plan st ≠ [] →
    last (map day (plan st)) = Some (day_label (day_no st)) ∧
    0 < used_today st;
  packed_days :
    plan st ≠ [] →
    list_to_set (map day (plan st)) =@{gset string}
    list_to_set (map day_label (seqZ 1 (day_no st)))
}.

(** [len(set([item['day'] for item in plan]))], the [total_days] that the
    handler [generate_plan] reports (line 359). *)
Definition total_days (p : list chunk) : nat :=
  size (list_to_set (C:=gset string) (map day p)).

(** ** The handlers that use the plan generator

    The handlers [generate_plan], [update_progress], [get_plan] and
    [get_dashboard] (src/app.py, lines 102-117 and 258-578) as they run with
    the in-memory storage, that is when [init_mongodb] returned [None] and
    [can_use_mongodb()] is false. A request is its [Authorization] header
    and its JSON body, the body with the types the handlers expect: strings
    for names, an integer for [task_index] and [time_spent], a boolean for
    [completed]. [uuid.uuid4()] and [datetime.utcnow()] are arguments. *)

(** One entry of the "topics" list of a request; [None] is a missing key. *)
Record topic_data := TopicData {
  td_course : option string;
  td_topic : option string;
  td_difficulty : option string
}.

(** A body of [/api/generate-plan] that is a JSON object;
    [rq_other_keys] says that it has keys besides these four. *)
Record plan_request := PlanRequest {
  rq_student_name : option string;
  rq_exam_date : option string;
  rq_daily_hours : option hours_arg;
  rq_topics : option (list topic_data);
  rq_other_keys : bool
}.

(** A body of [/api/update-progress] that is a JSON object. *)
Record progress_request := ProgressRequest {
  pr_plan_id : option string;
  pr_task_index : option Z;
  pr_completed : option bool;
  pr_time_spent : option Z
}.

(** The dict of a user, as [register] builds it. *)
Record user := User {
  user_id : string;
  name : string;
  email : string;
  password : string;
  created_at : string;
  total_study_time : Z;
  plans_count : Z;
  completed_topics : Z;
  last_login : string
}.

(** A chunk as a stored plan keeps it: [{**task, "completed": ...,
    "time_spent": ...}]. *)
Record task := Task {
  task_chunk : chunk;
  completed : bool;
  time_spent : Z
}.

(** The [plan_doc] dict. *)
Record plan_doc := PlanDoc {
  plan_id : string;
  pd_user_id : string;
  pd_student_name : string;
  pd_exam_date : string;
  pd_daily_hours : hours_arg;
  pd_created_at : string;
  pd_plan : list task
}.

(** The two global dicts the handlers read and write. A user dict is one
    shared object: it is kept once, under the key it has in [user_by_id]. *)
Record store := Store {
  user_by_id : gmap string user;
  plans_store : gmap string (list plan_doc)
}.

(** One line of [recent_plans], without its [progress], a float. *)
Record recent_plan := RecentPlan {
  rp_plan_id : string;
  rp_student_name : string;
  rp_created_at : string;
  rp_total_tasks : nat;
  rp_completed_tasks : nat;
  rp_daily_hours : hours_arg
}.

(** What a handler answers: [jsonify(...)] and the status code. The
    dashboard is given without its floats ([completion_rate], [progress])
    and without the constant [daily_activity]. *)
Inductive response :=
| ErrorResponse (code : Z) (msg : string)
| PlanCreated (pid student_name exam_date : string)
    (daily_hours : hours_arg) (p : list chunk) (total_topics : nat)
    (days : nat)
| ProgressUpdated (pid : string) (task_index : Z) (done : bool)
    (spent : Z)
| PlanFound (doc : plan_doc)
| DashboardStats (u : user) (study_time topics_done : Z)
    (total_plans active_plans total_tasks completed_tasks : nat)
    (recent : list recent_plan).

(** [s.split(' ')] *)
Fixpoint split_space (s : string) : list string :=
  match s with
  | EmptyString => [EmptyString]
  | String a s =>
      if Ascii.eqb a Ascii.Space then EmptyString :: split_space s
      else match split_space s with
           | [] => [String a EmptyString]
           | w :: ws => String a w :: ws
           end
  end.

(** The [user_id] that [get_user_from_token] reads in the header. *)
Definition token_of (auth_header : option string) : option string :=
  match auth_header with
  | None => None
  | Some h =>
      if String.prefix "Bearer " h then split_space h !! 1%nat else None
  end.

(** [user_by_id.get(user_id)]: the user dict, with the key it is stored
    under. *)
Definition get_user_from_token (auth_header : option string) (st : store)
    : option (string * user) :=
  match token_of auth_header with
  | None => None
  | Some t =>
      match user_by_id st !! t with
      | None => None
      | Some u => Some (t, u)
      end
  end.

(** [sum(1 for task in plan_tasks if task.get("completed", False))] *)
Definition completed_count (tasks : list task) : nat :=
  length (filter (λ t, completed t = true) tasks).

Definition plans_of (st : store) (uid : string) : list plan_doc :=
  default [] (plans_store st !! uid).

(** [get_plan(plan_id)] *)
Definition get_plan (auth_header : option string) (pid : string)
    (st : store) : response :=
  match get_user_from_token auth_header st with
  | None => ErrorResponse 401 "Authentication required"
  | Some (_, u) =>
      match list_find (λ p, plan_id p = pid) (plans_of st (user_id u)) with
      | Some (_, doc) => PlanFound doc
      | None => ErrorResponse 404 "Plan not found"
      end
  end.

(** The task that [update_progress] writes back. *)
Definition set_progress (done : bool) (spent : Z) (t : task) : task :=
  {| task_chunk := task_chunk t; completed := done; time_spent := spent |}.

(** [user["plans_count"] = user.get("plans_count", 0) + 1] *)
Definition count_plan (u : user) : user :=
  {| user_id := user_id u; name := name u; email := email u;
     password := password u; created_at := created_at u;
     total_study_time := total_study_time u;
     plans_count := plans_count u + 1;
     completed_topics := completed_topics u;
     last_login := last_login u |}.

(** The two updates of the user dict in [update_progress]:
    [total_study_time] grows by [time_spent], and [completed_topics] by one
    when [completed] is true. *)
Definition count_progress (done : bool) (spent : Z) (u : user) : user :=
  {| user_id := user_id u; name := name u; email := email u;
     password := password u; created_at := created_at u;
     total_study_time := total_study_time u + spent;
     plans_count := plans_count u;
     completed_topics :=
       if done then completed_topics u + 1 else completed_topics u;
     last_login := last_login u |}.

(** The plan dict after the two assignments to its task [i]. *)
Definition with_progress (done : bool) (spent : Z) (i : nat) (doc : plan_doc)
    : plan_doc :=
  {| plan_id := plan_id doc; pd_user_id := pd_user_id doc;
     pd_student_name := pd_student_name doc;
     pd_exam_date := pd_exam_date doc;
     pd_daily_hours := pd_daily_hours doc;
     pd_created_at := pd_created_at doc;
     pd_plan := alter (set_progress done spent) i (pd_plan doc) |}.

(** [update_progress()]; [data = None] is a request without a JSON body, on
    which [data.get] raises and the handler answers 500. *)
Definition update_progress (auth_header : option string)
    (data : option progress_request) (st : store) : response * store :=
  match get_user_from_token auth_header st with
  | None => (ErrorResponse 401 "Authentication required", st)
  | Some (token, u) =>
      match data with
      | None => (ErrorResponse 500 "Failed to update progress", st)
      | Some data =>
          let done := default false (pr_completed data) in
          let spent := default 0 (pr_time_spent data) in
          match pr_plan_id data, pr_task_index data with
          | Some pid, Some task_index =>
              if decide (pid = EmptyString)
              then (ErrorResponse 400 "Plan ID and task index are required",
                    st)
              else
                let user_plans := plans_of st (user_id u) in
                match list_find (λ p, plan_id p = pid) user_plans with
                | None => (ErrorResponse 404 "Plan not found", st)
                | Some (plan_idx, doc) =>
                    if decide (0 ≤ task_index
                               < Z.of_nat (length (pd_plan doc)))
                    then
                      let doc' :=
                        with_progress done spent (Z.to_nat task_index) doc in
                      let u' := count_progress done spent u in
                      (ProgressUpdated pid task_index done spent,
                       {| user_by_id := <[token := u']> (user_by_id st);
                          plans_store :=
                            <[user_id u := <[plan_idx := doc']> user_plans]>
                              (plans_store st) |})
                    else (ErrorResponse 400 "Invalid task index", st)
                end
          | _, _ =>
              (ErrorResponse 400 "Plan ID and task index are required", st)
          end
      end
  end.

(** [get_dashboard()], the integers of it. No plan dict has a "completed"
    key, so [active_plans] counts every plan. *)
Definition get_dashboard (auth_header : option string) (st : store)
    : response :=
  match get_user_from_token auth_header st with
  | None => ErrorResponse 401 "Authentication required"
  | Some (_, u) =>
      let user_plans := plans_of st (user_id u) in
      DashboardStats u (total_study_time u) (completed_topics u)
        (length user_plans) (length user_plans)
        (foldr (λ doc n, length (pd_plan doc) + n)%nat 0%nat user_plans)
        (foldr (λ doc n, completed_count (pd_plan doc) + n)%nat 0%nat
           user_plans)
        (map (λ doc,
           {| rp_plan_id := plan_id doc;
              rp_student_name := pd_student_name doc;
              rp_created_at := pd_created_at doc;
              rp_total_tasks := length (pd_plan doc);
              rp_completed_tasks := completed_count (pd_plan doc);
              rp_daily_hours := pd_daily_hours doc |})
           (take 5 user_plans))
  end.

Section generate_plan.
(** [str.strip] and [str.lower], Python's own: any two functions. *)
Variables (strip lower : string → string).

(** [x.strip() or fallback] *)
Definition strip_or (x fallback : string) : string :=
  if decide (strip x = EmptyString) then fallback else strip x.

(** The loop that fills [courses], [topics] and [difficulties] from
    [topics_data], from index [i] on; an entry whose topic is blank is
    skipped. *)
Fixpoint extract_topics (i : nat) (topics_data : list topic_data)
    : list string * list string * list string :=
  match topics_data with
  | [] => ([], [], [])
  | td :: topics_data =>
      let crs :=
        strip_or (default EmptyString (td_course td))
          ("Subject " +:+ pretty (i + 1)%nat) in
      let tpc := strip (default EmptyString (td_topic td)) in
      let level := lower (default "medium" (td_difficulty td)) in
      let '(courses, topics, difficulties) :=
        extract_topics (S i) topics_data in
      if decide (tpc = EmptyString) then (courses, topics, difficulties)
      else (crs :: courses, tpc :: topics, level :: difficulties)
  end.

(** [not data] for a body that is a JSON object: it has no key. *)
Definition empty_request (data : plan_request) : bool :=
  match rq_student_name data, rq_exam_date data, rq_daily_hours data,
        rq_topics data, rq_other_keys data with
  | None, None, None, None, false => true
  | _, _, _, _, _ => false
  end.

(** [generate_plan()]; [data = None] is a request without a JSON body;
    [new_id] is [str(uuid.uuid4())] and [now] is [datetime.utcnow()].
    [None] when the fuel runs out. *)
Definition generate_plan (fuel : nat) (auth_header : option string)
    (data : option plan_request) (new_id now : string) (st : store)
    : option (response * store) :=
  match get_user_from_token auth_header st with
  | None => Some (ErrorResponse 401 "Please login first", st)
  | Some (token, u) =>
      match data with
      | None => Some (ErrorResponse 400 "No data provided", st)
      | Some data =>
          if empty_request data
          then Some (ErrorResponse 400 "No data provided", st) else
          let student_name :=
            strip_or (default EmptyString (rq_student_name data)) (name u) in
          let exam_date := default EmptyString (rq_exam_date data) in
          let daily_hours := default (Number 2) (rq_daily_hours data) in
          match default [] (rq_topics data) with
          | [] => Some (ErrorResponse 400 "At least one topic is required",
                        st)
          | topics_data =>
              let '(courses, topics, difficulties) :=
                extract_topics 0 topics_data in
              match topics with
              | [] => Some (ErrorResponse 400 "Please provide valid topics",
                            st)
              | _ =>
                  match generate_simple_plan fuel courses topics
                          difficulties daily_hours with
                  | OutOfFuel => None
                  | Raises _ =>
                      Some (ErrorResponse 500
                              "Failed to generate plan. Please try again.",
                            st)
                  | Returns [] =>
                      Some (ErrorResponse 500 "Failed to generate plan", st)
                  | Returns p =>
                      let doc :=
                        {| plan_id := new_id;
                           pd_user_id := user_id u;
                           pd_student_name := student_name;
                           pd_exam_date := exam_date;
                           pd_daily_hours := daily_hours;
                           pd_created_at := now;
                           pd_plan :=
                             map (λ c, {| task_chunk := c;
                                          completed := false;
                                          time_spent := 0 |}) p |} in
                      let u' := count_plan u in
                      Some (PlanCreated new_id student_name exam_date
                              daily_hours p (length topics) (total_days p),
                            {| user_by_id := <[token := u']> (user_by_id st);
                               plans_store :=
                                 <[user_id u :=
                                     plans_of st (user_id u) ++ [doc]]>
                                   (plans_store st) |})
                  end
              end
          end
      end
  end.
End generate_plan.

(** A string without a space, as a [user_id] made by [uuid.uuid4()] is. *)
Fixpoint no_space (s : string) : bool :=
  match s with
  | EmptyString => true
  | String a s => negb (Ascii.eqb a Ascii.Space) && no_space s
  end.

(** A user, a store and a request for the examples. *)
Definition ann : user :=
  {| user_id := "u-1"; name := "Ann"; email := "ann@example.org";
     password := "$2b$12$hash"; created_at := "2025-01-15T10:00:00";
     total_study_time := 0; plans_count := 0; completed_topics := 0;
     last_login := "2025-01-15T10:00:00" |}.

Definition ann_store : store :=
  {| user_by_id := {[ "u-1" := ann ]}; plans_store := ∅ |}.

Definition ann_topics : list topic_data :=
  [ {| td_course := Some "Phys"; td_topic := Some "Motion";
       td_difficulty := Some "hard" |};
    {| td_course := None; td_topic := Some EmptyString;
       td_difficulty := None |};
    {| td_course := Some "Phys"; td_topic := Some "Energy";
       td_difficulty := Some "hard" |} ].

Definition ann_request : plan_request :=
  {| rq_student_name := None; rq_exam_date := Some "2025-06-01";
     rq_daily_hours := Some (Number 1); rq_topics := Some ann_topics;
     rq_other_keys := false |}.

(** The plan dict and the store after Ann's request, answered with the
    identifier "p-1". *)
Definition ann_doc : plan_doc :=
  {| plan_id := "p-1"; pd_user_id := "u-1"; pd_student_name := "Ann";
     pd_exam_date := "2025-06-01"; pd_daily_hours := Number 1;
     pd_created_at := "2025-01-16T09:00:00";
     pd_plan :=
       map (λ c, {| task_chunk := c; completed := false; time_spent := 0 |})
         phys_plan |}.

Definition ann_store_1 : store :=
  {| user_by_id := {[ "u-1" := count_plan ann ]};
     plans_store := {[ "u-1" := [ann_doc] ]} |}.

(** Ann reports 25 minutes on the second task of "p-1" and that it is
    done. *)
Definition ann_progress : progress_request :=
  {| pr_plan_id := Some "p-1"; pr_task_index := Some 1;
     pr_completed := Some true; pr_time_spent := Some 25 |}.

Definition ann_store_2 : store :=
  {| user_by_id := {[ "u-1" := count_progress true 25 (count_plan ann) ]};
     plans_store := {[ "u-1" := [with_progress true 25 1 ann_doc] ]} |}.

(** The identity stands for [strip] and [lower] in the examples: their
    strings have no blank at either end and no capital to lower. *)
Definition as_is (s : string) : string := s.

(** ** Arithmetic and list facts *)

Lemma minutes_total_app (l1 l2 : list chunk) :
  minutes_total (l1 ++ l2) = minutes_total l1 + minutes_total l2.
Proof.
  induction l1 as [|c l1 IH]; simpl; [lia|]. rewrite IH. lia.
Qed.

Lemma minutes_on_app d (l1 l2 : list chunk) :
  minutes_on d (l1 ++ l2) = minutes_on d l1 + minutes_on d l2.
Proof.
  unfold minutes_on. rewrite filter_app. apply minutes_total_app.
Qed.

Lemma minutes_on_singleton d (c : chunk) :
  minutes_on d [c] = if decide (day c = d) then suggested_minutes c else 0.
Proof.
  unfold minutes_on. rewrite filter_cons, filter_nil.
  destruct (decide (day c = d)); simpl; lia.
Qed.

Lemma minutes_total_zero q (l : list chunk) :
  Forall (λ c, 1 ≤ suggested_minutes c ≤ q) l → minutes_total l = 0 →
  l = [].
Proof.
  destruct 1 as [|c l Hc Hl]; [done|]. simpl.
  assert (0 ≤ minutes_total l); [|lia].
  induction Hl as [|c' l' Hc' _ IH]; simpl; lia.
Qed.

Lemma day_label_inj a b : day_label a = day_label b → a = b.
Proof.
  unfold day_label. intros H%(inj (String.app _)).
  by apply (inj pretty) in H.
Qed.

(** No chunk of a plan is on a day the plan's day numbers leave out. *)
Lemma minutes_on_other_day (l : list chunk) (ds : list Z) d :
  map day l = map day_label ds → Forall (λ x, x ≠ d) ds →
  minutes_on (day_label d) l = 0.
Proof.
  revert ds. induction l as [|c l IH]; intros [|x ds] Hmap Hne;
    simplify_eq/=; [done|].
  apply Forall_cons in Hne as [Hx Hne].
  change (c :: l) with ([c] ++ l). rewrite minutes_on_app, (IH ds) by done.
  rewrite minutes_on_singleton.
  destruct (decide (day c = day_label d)) as [Heq|]; [|lia].
  rewrite H in Heq. by apply day_label_inj in Heq.
Qed.

Lemma StronglySorted_snoc (ds : list Z) d :
  StronglySorted Z.le ds → Forall (λ x, x ≤ d) ds →
  StronglySorted Z.le (ds ++ [d]).
Proof.
  induction 1 as [|x ds Hs IH Hx]; intros Hd; simpl.
  - repeat constructor.
  - apply Forall_cons in Hd as [Hxd Hd]. constructor; [by apply IH|].
    apply Forall_app; split; [done|]. by constructor.
Qed.

Lemma suggested_for_delta base level :
  suggested_for base level = Z.max 15 (base + level_delta level).
Proof.
  unfold suggested_for, level_delta.
  destruct (String.eqb_spec level "easy"), (String.eqb_spec level "hard");
    repeat case_decide; simplify_eq; f_equal; lia.
Qed.

Lemma suggested_for_pos base level : 15 ≤ suggested_for base level.
Proof. unfold suggested_for. lia. Qed.

Lemma suggested_for_le base level :
  suggested_for base level ≤ Z.max 15 (base + 10).
Proof.
  rewrite suggested_for_delta. unfold level_delta.
  repeat case_decide; lia.
Qed.

(** ** One iteration of the [while] loop *)

Lemma while_body_eq q crs tpc level r st :
  while_body q crs tpc level r st =
  let st1 := rollover q st in
  let c := carved q crs tpc level r st1 in
  (r - suggested_minutes c,
   {| plan := plan st ++ [c]; day_no := day_no st1;
      used_today := used_today st1 + suggested_minutes c;
      used_hist := used_hist st1 ++ [used_today st1 + suggested_minutes c] |}).
Proof.
  unfold while_body, carved, rollover, set_used.
  destruct (used_today st >=? q); reflexivity.
Qed.

Lemma carved_break_rule q crs tpc level r st1 :
  break_rule (carved q crs tpc level r st1).
Proof.
  unfold break_rule, carved; simpl.
  set (m := Z.min r (q - used_today st1)).
  destruct (Z.geb_spec m 60), (Z.geb_spec m 30);
    repeat split; intros; first [done | lia].
Qed.

(** After the rollover there is room left in the day, and [used_today] is
    what the plan has put on the current day so far. *)
Lemma rollover_inv q st :
  0 < q → inv q st →
  let st1 := rollover q st in
  0 ≤ used_today st1 < q ∧
  day_no st ≤ day_no st1 ∧
  plan st1 = plan st ∧
  used_today st1 = minutes_on (day_label (day_no st1)) (plan st) ∧
  Forall (λ u, 0 ≤ u ≤ q) (used_hist st1) ∧
  ∃ ds : list Z,
    map day (plan st) = map day_label ds ∧
    StronglySorted Z.le ds ∧
    Forall (λ d, 1 ≤ d ≤ day_no st1) ds ∧
    match ds with [] => day_no st1 = 1 | d :: _ => d = 1 end.
Proof.
  intros Hq [Hused Hhist (ds & Hmap & Hsort & Hle & Hhead) Hon Hchunks].
  unfold rollover, set_used.
  destruct (Z.geb_spec (used_today st) q) as [Hge|Hlt]; simpl.
  - split; [lia|]. split; [lia|]. split; [done|]. split.
    { symmetry. apply (minutes_on_other_day _ ds); [done|].
      eapply Forall_impl; [exact Hle|]. simpl. lia. }
    split. { apply Forall_app; split; [done|]. constructor; [lia|done]. }
    exists ds. split; [done|]. split; [done|]. split.
    { eapply Forall_impl; [exact Hle|]. simpl. lia. }
    destruct ds; [|done]. lia.
  - split; [lia|]. split; [lia|]. split; [done|]. split; [done|].
    split; [done|]. exists ds. split; [done|]. split; [done|].
    split; [done|]. destruct ds; [|done]. tauto.
Qed.

(** An iteration under a positive quota keeps the invariant, takes at least
    one minute off [remaining], and appends one chunk. *)
Lemma while_body_inv q crs tpc level r st :
  0 < q → inv q st → 0 < r →
  ∃ c, (while_body q crs tpc level r st).1 = r - suggested_minutes c ∧
    plan (while_body q crs tpc level r st).2 = plan st ++ [c] ∧
    inv q (while_body q crs tpc level r st).2 ∧
    day_no st ≤ day_no (while_body q crs tpc level r st).2 ∧
    1 ≤ suggested_minutes c ≤ r ∧
    suggested_minutes c = Z.min r (q - minutes_on (day c) (plan st)) ∧
    course c = crs ∧ topic c = tpc ∧ difficulty c = level ∧
    ai_hint c = pick_hint level.
Proof.
  intros Hq Hinv Hr.
  destruct (rollover_inv q st Hq Hinv)
    as (Hu & Hday & Hplan & Hon & Hhist & ds & Hmap & Hsort & Hle & Hhead).
  rewrite while_body_eq. cbv zeta.
  set (st1 := rollover q st) in *.
  exists (carved q crs tpc level r st1).
  assert (Hm : suggested_minutes (carved q crs tpc level r st1)
               = Z.min r (q - used_today st1)) by reflexivity.
  assert (Hd : day (carved q crs tpc level r st1) = day_label (day_no st1))
    by reflexivity.
  assert (Hf : course (carved q crs tpc level r st1) = crs ∧
               topic (carved q crs tpc level r st1) = tpc ∧
               difficulty (carved q crs tpc level r st1) = level ∧
               ai_hint (carved q crs tpc level r st1) = pick_hint level)
    by done.
  generalize dependent (carved q crs tpc level r st1).
  intros c Hm Hd Hf. simpl.
  split; [done|]. split; [done|]. split.
  { split; simpl.
    - lia.
    - apply Forall_app; split; [done|]. constructor; [lia|done].
    - exists (ds ++ [day_no st1]). simpl. split.
      { rewrite !map_app, Hmap. simpl. by rewrite Hd. }
      split.
      { apply StronglySorted_snoc; [done|].
        eapply Forall_impl; [exact Hle|]. simpl. lia. }
      split.
      { apply Forall_app; split; [done|]. constructor; [|done].
        destruct Hinv as [_ _ (ds' & _ & _ & Hle' & Hhead') _ _].
        assert (1 ≤ day_no st); [|lia].
        destruct ds' as [|d ds']; [lia|].
        apply Forall_cons in Hle' as [? _]. lia. }
      destruct ds; simpl; [lia|done].
    - rewrite minutes_on_app, minutes_on_singleton, Hd, <- Hon.
      by rewrite decide_True.
    - apply Forall_app; split; [by destruct Hinv|].
      constructor; [lia|done]. }
  split; [done|]. split; [lia|]. split; [by rewrite Hm, Hd, Hon|].
  done.
Qed.

(** ** The [while] loop *)

Section while_loop.
Variables (q : Z) (crs tpc level : string).

Lemma while_loop_unfold fuel r st :
  while_loop fuel q crs tpc level r st =
  if r >? 0 then
    match fuel with
    | O => None
    | S fuel =>
        while_loop fuel q crs tpc level
          (while_body q crs tpc level r st).1
          (while_body q crs tpc level r st).2
    end
  else Some st.
Proof. destruct fuel; reflexivity. Qed.

(** What the loop has done when it stops, under a positive quota. *)
Lemma while_loop_spec fuel : ∀ r st st',
  0 < q → inv q st → 0 ≤ r →
  while_loop fuel q crs tpc level r st = Some st' →
  inv q st' ∧ day_no st ≤ day_no st' ∧
  ∃ blk, plan st' = plan st ++ blk ∧
    Forall (λ c, course c = crs ∧ topic c = tpc ∧ difficulty c = level ∧
                 ai_hint c = pick_hint level) blk ∧
    minutes_total blk = r ∧
    (0 < r → ∃ c rest, blk = c :: rest ∧
       suggested_minutes c = Z.min r (q - minutes_on (day c) (plan st))).
Proof.
  induction fuel as [|fuel IH]; intros r st st' Hq Hinv Hr;
    rewrite while_loop_unfold;
    destruct (Z.gtb_spec r 0) as [Hpos|Hzero]; try done.
  - intros [= <-]. split; [done|]. split; [lia|]. exists [].
    rewrite app_nil_r. split; [done|]. split; [done|].
    split; [simpl; lia|intros; lia].
  - destruct (while_body_inv q crs tpc level r st Hq Hinv Hpos)
      as (c & Hfst & Hplan & Hinv1 & Hday & Hc & Hmin & Hfields).
    intros Hloop.
    apply IH in Hloop as (Hinv' & Hday' & blk & Hplan' & Hall & Hsum & _);
      [|done|done|lia].
    split; [done|]. split; [lia|]. exists (c :: blk).
    split. { by rewrite Hplan', Hplan, <- app_assoc. }
    split. { by constructor. }
    split. { simpl. lia. }
    intros _. by exists c, blk.
  - intros [= <-]. split; [done|]. split; [lia|]. exists [].
    rewrite app_nil_r. split; [done|]. split; [done|].
    split; [simpl; lia|intros; lia].
Qed.

(** Under a positive quota every iteration takes a minute or more off
    [remaining], so [remaining] iterations are enough. *)
Lemma while_loop_terminates fuel : ∀ r st,
  0 < q → inv q st → (Z.to_nat r ≤ fuel)%nat →
  is_Some (while_loop fuel q crs tpc level r st).
Proof.
  induction fuel as [|fuel IH]; intros r st Hq Hinv Hfuel;
    rewrite while_loop_unfold;
    destruct (Z.gtb_spec r 0) as [Hpos|Hzero]; [lia|done| |done].
  destruct (while_body_inv q crs tpc level r st Hq Hinv Hpos)
    as (c & Hfst & _ & Hinv1 & _ & Hc & _).
  apply IH; [done|done|lia].
Qed.

(** More fuel does not change what the loop returns. *)
Lemma while_loop_mono fuel : ∀ fuel' r st st',
  (fuel ≤ fuel')%nat →
  while_loop fuel q crs tpc level r st = Some st' →
  while_loop fuel' q crs tpc level r st = Some st'.
Proof.
  induction fuel as [|fuel IH]; intros [|fuel'] r st st' Hle;
    rewrite !(while_loop_unfold _ r);
    destruct (r >? 0); try done; try lia.
  apply IH. lia.
Qed.

(** Without a positive quota nothing is ever taken off [remaining]: the
    loop does not stop. *)
Lemma while_loop_diverges fuel : ∀ r st,
  q ≤ 0 → 0 < r → q ≤ used_today st →
  while_loop fuel q crs tpc level r st = None.
Proof.
  induction fuel as [|fuel IH]; intros r st Hq Hr Hused;
    rewrite while_loop_unfold;
    destruct (Z.gtb_spec r 0) as [Hpos|Hzero]; try done; try lia.
  rewrite while_body_eq. cbv zeta.
  assert (Hroll : used_today (rollover q st) = 0).
  { unfold rollover. by destruct (Z.geb_spec (used_today st) q); [|lia]. }
  apply IH; simpl; [done| |]; rewrite Hroll; lia.
Qed.

(** Every chunk the loop appends follows the break rule. *)
Lemma while_loop_break_rule fuel : ∀ r st st',
  Forall break_rule (plan st) →
  while_loop fuel q crs tpc level r st = Some st' →
  Forall break_rule (plan st').
Proof.
  induction fuel as [|fuel IH]; intros r st st' Hall;
    rewrite while_loop_unfold;
    destruct (r >? 0); try done; try (by intros [= <-]).
  rewrite while_body_eq. cbv zeta. apply IH. simpl.
  apply Forall_app; split; [done|].
  constructor; [apply carved_break_rule|done].
Qed.
End while_loop.

(** ** The [for] loop *)

Section for_loop.
Variables (q base : Z) (courses difficulties : list string).

(** Under a positive quota the loop appends one block per topic. *)
Lemma for_loop_spec fuel topics : ∀ i st st',
  0 < q → inv q st →
  for_loop fuel q base courses difficulties i topics st = Some st' →
  inv q st' ∧
  ∃ blocks, plan st' = plan st ++ concat blocks ∧
    blocks_spec q base courses difficulties i topics (plan st) blocks.
Proof.
  induction topics as [|tpc topics IH]; intros i st st' Hq Hinv; simpl.
  - intros [= <-]. split; [done|]. exists []. simpl.
    by rewrite app_nil_r.
  - destruct (while_loop _ _ _ _ _ _ _) as [st1|] eqn:Hwhile; [|done].
    pose proof (suggested_for_pos base (level_at difficulties i)) as Hsug.
    apply while_loop_spec in Hwhile
      as (Hinv1 & _ & blk & Hplan & Hall & Hsum & Hhead); [|done|done|lia].
    intros Hfor.
    apply IH in Hfor as (Hinv' & blocks & Hplan' & Hblocks); [|done|done].
    split; [done|]. exists (blk :: blocks). simpl. split.
    { by rewrite Hplan', Hplan, <- app_assoc. }
    split; [|by rewrite <- Hplan].
    split; [done|]. split; [done|]. apply Hhead. lia.
Qed.

Lemma for_loop_terminates fuel topics : ∀ i st,
  0 < q → inv q st → (Z.to_nat (Z.max 15 (base + 10)) ≤ fuel)%nat →
  is_Some (for_loop fuel q base courses difficulties i topics st).
Proof.
  induction topics as [|tpc topics IH]; intros i st Hq Hinv Hfuel; simpl.
  - done.
  - pose proof (suggested_for_pos base (level_at difficulties i)) as Hsug.
    pose proof (suggested_for_le base (level_at difficulties i)) as Hle.
    destruct (while_loop_terminates q (course_at courses i) tpc
                (level_at difficulties i) fuel
                (suggested_for base (level_at difficulties i)) st)
      as [st1 Hwhile]; [done|done|lia|].
    rewrite Hwhile.
    apply while_loop_spec in Hwhile as (Hinv1 & _); [|done|done|lia].
    by apply IH.
Qed.

Lemma for_loop_mono fuel fuel' topics : ∀ i st st',
  (fuel ≤ fuel')%nat →
  for_loop fuel q base courses difficulties i topics st = Some st' →
  for_loop fuel' q base courses difficulties i topics st = Some st'.
Proof.
  induction topics as [|tpc topics IH]; intros i st st' Hle; simpl.
  - done.
  - destruct (while_loop fuel _ _ _ _ _ _) as [st1|] eqn:Hwhile; [|done].
    rewrite (while_loop_mono _ _ _ _ _ _ _ _ _ Hle Hwhile). by apply IH.
Qed.

(** Without a positive quota the first topic is never finished. *)
Lemma for_loop_diverges fuel tpc topics i st :
  q ≤ 0 → q ≤ used_today st →
  for_loop fuel q base courses difficulties i (tpc :: topics) st = None.
Proof.
  intros Hq Hused. simpl.
  pose proof (suggested_for_pos base (level_at difficulties i)) as Hsug.
  rewrite while_loop_diverges; [done|done|lia|done].
Qed.

Lemma for_loop_break_rule fuel topics : ∀ i st st',
  Forall break_rule (plan st) →
  for_loop fuel q base courses difficulties i topics st = Some st' →
  Forall break_rule (plan st').
Proof.
  induction topics as [|tpc topics IH]; intros i st st' Hall; simpl.
  - by intros [= <-].
  - destruct (while_loop _ _ _ _ _ _ _) as [st1|] eqn:Hwhile; [|done].
    apply while_loop_break_rule in Hwhile; [|done]. by apply IH.
Qed.

(** The blocks of a plan, read by index. *)
Lemma blocks_spec_lookup topics : ∀ i before blocks,
  blocks_spec q base courses difficulties i topics before blocks →
  length blocks = length topics ∧
  ∀ k tpc, topics !! k = Some tpc →
    ∃ blk, blocks !! k = Some blk ∧
      topic_block q (course_at courses (i + k)) tpc
        (level_at difficulties (i + k))
        (suggested_for base (level_at difficulties (i + k)))
        (before ++ concat (take k blocks)) blk.
Proof.
  induction topics as [|tpc topics IH]; intros i before [|blk blocks];
    simpl; try done.
  intros [Hblk Hrest]. apply IH in Hrest as [Hlen Hrest].
  split; [by rewrite Hlen|]. intros [|k] t Ht; simplify_eq/=.
  - exists blk. rewrite Nat.add_0_r, app_nil_r. done.
  - destruct (Hrest k t Ht) as (blk' & Hk & Hspec). exists blk'.
    split; [done|].
    by rewrite <- Nat.add_succ_comm, app_assoc.
Qed.
End for_loop.

(** ** The whole function *)

Lemma days_ok_start st :
  plan st = [] → day_no st = 1 → used_today st = 0 → days_ok st.
Proof.
  intros Hplan Hday Hused. exists []. rewrite Hplan.
  split; [done|]. split; [constructor|]. split; [constructor|done].
Qed.

Lemma inv_init q : 0 < q → inv q init_locals.
Proof.
  intros Hq. split; simpl; [lia| |by apply days_ok_start|done|done].
  constructor; [lia|done].
Qed.

Lemma run_plan_raises fuel courses topics difficulties daily_hours e :
  daily_quota_of daily_hours = inl e →
  run_plan fuel courses topics difficulties daily_hours = Raises e.
Proof. unfold run_plan. by intros ->. Qed.

Lemma run_plan_empty fuel courses difficulties daily_hours q :
  daily_quota_of daily_hours = inr q →
  run_plan fuel courses [] difficulties daily_hours =
  Returns {| plan := []; day_no := 1; used_today := 0; used_hist := [] |}.
Proof. unfold run_plan. by intros ->. Qed.

Lemma run_plan_nonempty fuel courses tpc topics difficulties daily_hours q :
  daily_quota_of daily_hours = inr q →
  run_plan fuel courses (tpc :: topics) difficulties daily_hours =
  match for_loop fuel q (base_of q (tpc :: topics)) courses difficulties
          0 (tpc :: topics) init_locals with
  | None => OutOfFuel
  | Some st => Returns st
  end.
Proof. unfold run_plan. by intros ->. Qed.

Lemma generate_simple_plan_returns fuel courses topics difficulties
    daily_hours p :
  generate_simple_plan fuel courses topics difficulties daily_hours
    = Returns p ↔
  ∃ st, run_plan fuel courses topics difficulties daily_hours = Returns st ∧
        plan st = p.
Proof.
  unfold generate_simple_plan.
  destruct (run_plan _ _ _ _ _) as [st| |]; split;
    try done; try (by intros (? & ? & ?)).
  - intros [= <-]. by exists st.
  - by intros (? & [= <-] & <-).
Qed.

(** Under a positive quota the function returns. *)
Lemma run_plan_terminates fuel courses topics difficulties daily_hours q :
  daily_quota_of daily_hours = inr q → 0 < q →
  (enough_fuel q topics ≤ fuel)%nat →
  ∃ st, run_plan fuel courses topics difficulties daily_hours = Returns st.
Proof.
  intros Hquota Hq Hfuel. destruct topics as [|tpc topics].
  - eexists. by eapply run_plan_empty.
  - rewrite (run_plan_nonempty _ _ _ _ _ _ q) by done.
    destruct (for_loop_terminates q (base_of q (tpc :: topics)) courses
                difficulties fuel (tpc :: topics) 0 init_locals)
      as [st Hst]; [done|by apply inv_init|done|].
    rewrite Hst. by exists st.
Qed.

(** What it returns then: one block of chunks per topic. *)
Lemma run_plan_spec fuel courses topics difficulties daily_hours q st :
  daily_quota_of daily_hours = inr q → 0 < q →
  run_plan fuel courses topics difficulties daily_hours = Returns st →
  inv q st ∧
  ∃ blocks, plan st = concat blocks ∧
    blocks_spec q (base_of q topics) courses difficulties 0 topics []
      blocks.
Proof.
  intros Hquota Hq. destruct topics as [|tpc topics].
  - rewrite (run_plan_empty _ _ _ _ q) by done. intros [= <-]. split.
    + split; simpl; [lia|done|by apply days_ok_start|done|done].
    + by exists [].
  - rewrite (run_plan_nonempty _ _ _ _ _ _ q) by done.
    destruct (for_loop _ _ _ _ _ _ _ _) as [st'|] eqn:Hfor; [|done].
    intros [= <-].
    apply for_loop_spec in Hfor as (Hinv & blocks & Hplan & Hblocks);
      [|done|by apply inv_init].
    split; [done|]. by exists blocks.
Qed.

(** Without a positive quota it never returns, unless there is no topic. *)
Lemma run_plan_diverges fuel courses topics difficulties daily_hours q :
  daily_quota_of daily_hours = inr q → q ≤ 0 → topics ≠ [] →
  run_plan fuel courses topics difficulties daily_hours = OutOfFuel.
Proof.
  intros Hquota Hq Hne. destruct topics as [|tpc topics]; [done|].
  rewrite (run_plan_nonempty _ _ _ _ _ _ q) by done.
  by rewrite for_loop_diverges.
Qed.

(** More fuel does not change what the function returns. *)
Lemma run_plan_mono fuel fuel' courses topics difficulties daily_hours st :
  (fuel ≤ fuel')%nat →
  run_plan fuel courses topics difficulties daily_hours = Returns st →
  run_plan fuel' courses topics difficulties daily_hours = Returns st.
Proof.
  intros Hle. unfold run_plan.
  destruct (daily_quota_of daily_hours) as [e|q]; [done|].
  destruct topics as [|tpc topics]; [done|].
  destruct (for_loop fuel _ _ _ _ _ _ _) as [st'|] eqn:Hfor; [|done].
  by rewrite (for_loop_mono _ _ _ _ _ _ _ _ _ _ Hle Hfor).
Qed.

Lemma generate_simple_plan_mono fuel fuel' courses topics difficulties
    daily_hours p :
  (fuel ≤ fuel')%nat →
  generate_simple_plan fuel courses topics difficulties daily_hours
    = Returns p →
  generate_simple_plan fuel' courses topics difficulties daily_hours
    = Returns p.
Proof.
  intros Hle (st & Hrun & <-)%generate_simple_plan_returns.
  apply generate_simple_plan_returns. exists st. split; [|done].
  by eapply run_plan_mono.
Qed.

(** The plan does not depend on the fuel that was enough to get it. *)
Lemma generate_simple_plan_agree fuel1 fuel2 courses topics difficulties
    daily_hours p1 p2 :
  generate_simple_plan fuel1 courses topics difficulties daily_hours
    = Returns p1 →
  generate_simple_plan fuel2 courses topics difficulties daily_hours
    = Returns p2 →
  p1 = p2.
Proof.
  intros H1 H2.
  apply (generate_simple_plan_mono _ (fuel1 `max` fuel2)%nat) in H1; [|lia].
  apply (generate_simple_plan_mono _ (fuel1 `max` fuel2)%nat) in H2; [|lia].
  congruence.
Qed.

(** A call that returns had no topic to schedule or a positive quota. *)
Lemma run_plan_returns_cases fuel courses topics difficulties daily_hours
    st :
  run_plan fuel courses topics difficulties daily_hours = Returns st →
  ∃ q, daily_quota_of daily_hours = inr q ∧
    (topics = [] ∧ plan st = [] ∨ topics ≠ [] ∧ 0 < q).
Proof.
  intros Hrun. destruct (daily_quota_of daily_hours) as [e|q] eqn:Hquota.
  { by rewrite (run_plan_raises _ _ _ _ _ e) in Hrun. }
  exists q. split; [done|]. destruct topics as [|tpc topics].
  - left. rewrite (run_plan_empty _ _ _ _ q) in Hrun by done.
    by injection Hrun as <-.
  - right. split; [done|]. destruct (decide (0 < q)) as [|Hq]; [done|].
    rewrite (run_plan_diverges _ _ _ _ _ q) in Hrun; [done|done|lia|done].
Qed.

(** A plan returned under a positive quota, cut into its blocks. *)
Lemma plan_blocks fuel courses topics difficulties daily_hours q p :
  daily_quota_of daily_hours = inr q → 0 < q →
  generate_simple_plan fuel courses topics difficulties daily_hours
    = Returns p →
  ∃ st blocks,
    run_plan fuel courses topics difficulties daily_hours = Returns st ∧
    plan st = p ∧ inv q st ∧
    p = concat blocks ∧ length blocks = length topics ∧
    ∀ k tpc, topics !! k = Some tpc →
      ∃ blk, blocks !! k = Some blk ∧
        topic_block q (course_at courses k) tpc (level_at difficulties k)
          (suggested_for (base_of q topics) (level_at difficulties k))
          (concat (take k blocks)) blk.
Proof.
  intros Hquota Hq (st & Hrun & <-)%generate_simple_plan_returns.
  destruct (run_plan_spec _ _ _ _ _ _ _ Hquota Hq Hrun)
    as (Hinv & blocks & Hplan & Hblocks).
  apply blocks_spec_lookup in Hblocks as [Hlen Hblocks].
  exists st, blocks. repeat (split; [done|]). exact Hblocks.
Qed.

(** Under a positive quota some fuel is enough for a plan. *)
Lemma generate_simple_plan_terminates courses topics difficulties
    daily_hours q :
  daily_quota_of daily_hours = inr q → 0 < q →
  ∃ fuel p,
    generate_simple_plan fuel courses topics difficulties daily_hours
      = Returns p.
Proof.
  intros Hquota Hq.
  destruct (run_plan_terminates (enough_fuel q topics) courses topics
              difficulties daily_hours q Hquota Hq) as [st Hst]; [done|].
  exists (enough_fuel q topics), (plan st).
  apply generate_simple_plan_returns. by exists st.
Qed.

(** Without a positive quota no fuel is enough, unless there is no topic. *)
Lemma generate_simple_plan_diverges fuel courses topics difficulties
    daily_hours q :
  daily_quota_of daily_hours = inr q → q ≤ 0 → topics ≠ [] →
  generate_simple_plan fuel courses topics difficulties daily_hours
    = OutOfFuel.
Proof.
  intros Hquota Hq Hne. unfold generate_simple_plan.
  by rewrite (run_plan_diverges _ _ _ _ _ q).
Qed.

(** With no topic the function returns the empty plan, whatever the quota,
    once [int] has returned one. *)
Lemma generate_simple_plan_empty fuel courses difficulties daily_hours q :
  daily_quota_of daily_hours = inr q →
  generate_simple_plan fuel courses [] difficulties daily_hours = Returns [].
Proof.
  intros Hquota. unfold generate_simple_plan.
  by rewrite (run_plan_empty _ _ _ _ q).
Qed.

(** [int] raising is the only way the function raises. *)
Lemma generate_simple_plan_raises fuel courses topics difficulties
    daily_hours e :
  generate_simple_plan fuel courses topics difficulties daily_hours
    = Raises e ↔
  daily_quota_of daily_hours = inl e.
Proof.
  unfold generate_simple_plan, run_plan.
  destruct (daily_quota_of daily_hours) as [e'|q]; [naive_solver|].
  destruct topics as [|tpc topics]; [naive_solver|].
  destruct (for_loop _ _ _ _ _ _ _ _); naive_solver.
Qed.

(** The missing and the unparsable [daily_hours] give the quota of two
    hours. *)
Lemma daily_quota_default :
  daily_quota_of Falsy = inr 120 ∧ daily_quota_of NotNumber = inr 120.
Proof. split; reflexivity. Qed.

(** With them the function does what it does for [daily_hours = 2.0]. *)
Lemma missing_or_unparsable_hours_default fuel courses topics difficulties :
  generate_simple_plan fuel courses topics difficulties Falsy
    = generate_simple_plan fuel courses topics difficulties (Number 2) ∧
  generate_simple_plan fuel courses topics difficulties NotNumber
    = generate_simple_plan fuel courses topics difficulties (Number 2).
Proof. split; reflexivity. Qed.

(** Hours above 0 can still give no quota: 1/128 of an hour is less than a
    minute, [int] truncates it to 0, and the call does not return. *)
Lemma subminute_hours_never_return fuel :
  daily_quota_of (Number 0.0078125) = inr 0 ∧
  generate_simple_plan fuel ["Math"] ["Algebra"] ["easy"] (Number 0.0078125)
    = OutOfFuel.
Proof.
  split; [reflexivity|].
  apply (generate_simple_plan_diverges _ _ _ _ _ 0); [reflexivity|lia|done].
Qed.

(** ** The example of two hard topics and one hour a day *)

Lemma phys_plan_returned :
  generate_simple_plan 2 phys_courses phys_topics phys_levels (Number 1)
    = Returns phys_plan.
Proof. vm_compute. reflexivity. Qed.

Lemma phys_plan_only fuel p :
  generate_simple_plan fuel phys_courses phys_topics phys_levels (Number 1)
    = Returns p →
  p = phys_plan.
Proof.
  intros Hp. exact (generate_simple_plan_agree _ _ _ _ _ _ _ _ Hp
                      phys_plan_returned).
Qed.

(** ** The claims *)

(** C1, counterexample. On two hard topics and one hour a day the plan has
    three chunks for two topics: the second topic, "Energy", is split over
    day 1 and day 2. No amount of fuel gives another plan. *)
Lemma energy_topic_split_in_two :
  generate_simple_plan 2 phys_courses phys_topics phys_levels (Number 1)
    = Returns phys_plan ∧
  map topic phys_plan = ["Motion"; "Energy"; "Energy"] ∧
  map day phys_plan = ["Day 1"; "Day 1"; "Day 2"] ∧
  ∀ fuel p,
    generate_simple_plan fuel phys_courses phys_topics phys_levels (Number 1)
      = Returns p →
    length p = 3%nat ∧ length p ≠ length phys_topics.
Proof.
  split; [exact phys_plan_returned|]. split; [done|]. split; [done|].
  intros fuel p ->%phys_plan_only. by split.
Qed.

(** C1, amended. For a non-empty topic list and a positive daily quota the
    function returns, and its plan is one non-empty block of consecutive
    chunks per topic, the blocks in the order of the topics. The first chunk
    of a block has min(suggested minutes, what is left of its day) minutes,
    where what is left of a day is the quota less the minutes the earlier
    chunks of the plan put on that day. The block is that one chunk exactly
    when the suggested minutes fit in what is left of the day; otherwise the
    topic is split and goes on in further chunks. *)
Theorem topic_blocks_first_chunk courses topics difficulties daily_hours q :
  topics ≠ [] → daily_quota_of daily_hours = inr q → 0 < q →
  (∃ fuel p,
     generate_simple_plan fuel courses topics difficulties daily_hours
       = Returns p) ∧
  ∀ fuel p,
    generate_simple_plan fuel courses topics difficulties daily_hours
      = Returns p →
    ∃ blocks, p = concat blocks ∧ length blocks = length topics ∧
      ∀ i tpc, topics !! i = Some tpc →
        ∃ c rest, blocks !! i = Some (c :: rest) ∧
          Forall (λ c', topic c' = tpc) (c :: rest) ∧
          let suggested :=
            suggested_for (base_of q topics) (level_at difficulties i) in
          let left_today :=
            q - minutes_on (day c) (concat (take i blocks)) in
          suggested_minutes c = Z.min suggested left_today ∧
          (rest = [] ↔ suggested ≤ left_today).
Proof.
  intros _ Hquota Hq.
  split; [by eapply generate_simple_plan_terminates|].
  intros fuel p Hp.
  destruct (plan_blocks _ _ _ _ _ _ _ Hquota Hq Hp)
    as (st & blocks & _ & Hplan & Hinv & Hcat & Hlen & Hblocks).
  exists blocks. split; [done|]. split; [done|]. intros i tpc Hi.
  destruct (Hblocks i tpc Hi)
    as (blk & Hblk & Hall & Hsum & c & rest & -> & Hfirst).
  exists c, rest. split; [done|]. split.
  { eapply Forall_impl; [exact Hall|]. simpl. tauto. }
  cbv zeta. split; [done|].
  pose proof (inv_chunks _ _ Hinv) as Hchunks.
  rewrite Hplan, Hcat, Forall_concat, Forall_lookup in Hchunks.
  apply Hchunks in Hblk. apply Forall_cons in Hblk as [Hc Hrest].
  simpl in Hsum. split.
  - intros ->. simpl in Hsum. lia.
  - intros Hfits. apply (minutes_total_zero q); [done|lia].
Qed.

Lemma topic_blocks_first_chunk_witness :
  phys_topics ≠ [] ∧ daily_quota_of (Number 1) = inr 60 ∧ 0 < 60 ∧
  ((∃ fuel p,
      generate_simple_plan fuel phys_courses phys_topics phys_levels
        (Number 1) = Returns p) ∧
   ∀ fuel p,
     generate_simple_plan fuel phys_courses phys_topics phys_levels
       (Number 1) = Returns p →
     ∃ blocks, p = concat blocks ∧ length blocks = length phys_topics ∧
       ∀ i tpc, phys_topics !! i = Some tpc →
         ∃ c rest, blocks !! i = Some (c :: rest) ∧
           Forall (λ c', topic c' = tpc) (c :: rest) ∧
           let suggested :=
             suggested_for (base_of 60 phys_topics)
               (level_at phys_levels i) in
           let left_today :=
             60 - minutes_on (day c) (concat (take i blocks)) in
           suggested_minutes c = Z.min suggested left_today ∧
           (rest = [] ↔ suggested ≤ left_today)).
Proof.
  split; [done|]. split; [reflexivity|]. split; [lia|].
  apply (topic_blocks_first_chunk phys_courses phys_topics phys_levels
           (Number 1) 60); [done|reflexivity|lia].
Defined.

(** C2. With one topic and [daily_hours = -1] the quota is -60 minutes and
    the function does not terminate: no fuel is enough. *)
Theorem negative_hours_never_return fuel :
  generate_simple_plan fuel ["Math"] ["Algebra"] ["easy"] (Number (-1))
    = OutOfFuel.
Proof.
  apply (generate_simple_plan_diverges _ _ _ _ _ (-60));
    [reflexivity|lia|done].
Qed.

(** C3. The string "0" is truthy and parses to 0.0: the quota is then 0
    minutes, not the 120 of the default, and the call that returns a plan
    for a missing [daily_hours] does not return for it. *)
Theorem zero_hours_not_defaulted :
  daily_quota_of (Number 0) = inr 0 ∧
  daily_quota_of Falsy = inr 120 ∧
  (∀ fuel,
     generate_simple_plan fuel ["Math"] ["Algebra"] ["easy"] (Number 0)
       = OutOfFuel) ∧
  generate_simple_plan 1 ["Math"] ["Algebra"] ["easy"] Falsy
    = Returns [ {| day := "Day 1"; course := "Math"; topic := "Algebra";
                   difficulty := "easy"; suggested_minutes := 115;
                   ai_hint := pick_hint "easy";
                   break_after := Some 10 |} ].
Proof.
  split; [reflexivity|]. split; [reflexivity|]. split.
  - intros fuel. apply (generate_simple_plan_diverges _ _ _ _ _ 0);
      [reflexivity|lia|done].
  - vm_compute. reflexivity.
Qed.

(** C4, counterexample. The example of the specification returns three
    chunks, never two, and their breaks are 5, none and none. *)
Lemma phys_example_three_chunks :
  generate_simple_plan 2 phys_courses phys_topics phys_levels (Number 1)
    = Returns phys_plan ∧
  length phys_plan = 3%nat ∧
  map suggested_minutes phys_plan = [40; 20; 20] ∧
  map break_after phys_plan = [Some 5; None; None] ∧
  ∀ fuel c1 c2,
    generate_simple_plan fuel phys_courses phys_topics phys_levels (Number 1)
      ≠ Returns [c1; c2].
Proof.
  split; [exact phys_plan_returned|]. repeat (split; [done|]).
  by intros fuel c1 c2 ?%phys_plan_only.
Qed.

(** C4, amended. For topics [("Phys","Motion","hard"),
    ("Phys","Energy","hard")] and [daily_hours = 1] the function returns
    exactly three chunks: day 1, 40 minutes, break 5; day 1, 20 minutes, no
    break; day 2, 20 minutes, no break. Two iterations of the [while] loop
    per topic are enough. *)
Theorem phys_example_plan fuel :
  generate_simple_plan (2 + fuel) ["Phys"; "Phys"] ["Motion"; "Energy"]
    ["hard"; "hard"] (Number 1)
  = Returns [ phys_chunk "Day 1" "Motion" 40 (Some 5);
              phys_chunk "Day 1" "Energy" 20 None;
              phys_chunk "Day 2" "Energy" 20 None ].
Proof.
  apply (generate_simple_plan_mono 2); [lia|]. exact phys_plan_returned.
Qed.

(** C5. For a non-empty topic list and a positive daily quota the function
    returns, every chunk of its plan has at least 1 and at most
    [daily_quota] minutes, and no value [used_today] ever held is above
    [daily_quota]. *)
Theorem chunk_minutes_and_usage_bounds courses topics difficulties
    daily_hours q :
  topics ≠ [] → daily_quota_of daily_hours = inr q → 0 < q →
  (∃ fuel st,
     run_plan fuel courses topics difficulties daily_hours = Returns st) ∧
  ∀ fuel st,
    run_plan fuel courses topics difficulties daily_hours = Returns st →
    generate_simple_plan fuel courses topics difficulties daily_hours
      = Returns (plan st) ∧
    Forall (λ c, 1 ≤ suggested_minutes c ≤ q) (plan st) ∧
    Forall (λ u, u ≤ q) (used_hist st).
Proof.
  intros _ Hquota Hq. split.
  { exists (enough_fuel q topics). by eapply run_plan_terminates. }
  intros fuel st Hrun.
  destruct (run_plan_spec _ _ _ _ _ _ _ Hquota Hq Hrun) as [Hinv _].
  split. { apply generate_simple_plan_returns. by exists st. }
  split; [by destruct Hinv|].
  eapply Forall_impl; [exact (inv_hist _ _ Hinv)|]. simpl. lia.
Qed.

Lemma chunk_minutes_and_usage_bounds_witness :
  ["Algebra"; "Sets"; "Limits"] ≠ [] ∧
  daily_quota_of (Number 1.5) = inr 90 ∧ 0 < 90 ∧
  ((∃ fuel st,
      run_plan fuel ["Math"] ["Algebra"; "Sets"; "Limits"] ["easy"; "hard"]
        (Number 1.5) = Returns st) ∧
   ∀ fuel st,
     run_plan fuel ["Math"] ["Algebra"; "Sets"; "Limits"] ["easy"; "hard"]
       (Number 1.5) = Returns st →
     generate_simple_plan fuel ["Math"] ["Algebra"; "Sets"; "Limits"]
       ["easy"; "hard"] (Number 1.5) = Returns (plan st) ∧
     Forall (λ c, 1 ≤ suggested_minutes c ≤ 90) (plan st) ∧
     Forall (λ u, u ≤ 90) (used_hist st)).
Proof.
  split; [done|]. split; [reflexivity|]. split; [lia|].
  apply (chunk_minutes_and_usage_bounds ["Math"]
           ["Algebra"; "Sets"; "Limits"] ["easy"; "hard"] (Number 1.5) 90);
    [done|reflexivity|lia].
Defined.

(** C6. Whatever the input, the day fields of a returned plan are the
    labels "Day N" of day numbers N that never decrease along the plan, and
    the first chunk, when there is one, is on day 1. *)
Theorem day_numbers_nondecreasing fuel courses topics difficulties
    daily_hours p :
  generate_simple_plan fuel courses topics difficulties daily_hours
    = Returns p →
  ∃ days : list Z,
    map day p = map (λ n, "Day " +:+ pretty n) days ∧
    StronglySorted Z.le days ∧
    (p ≠ [] → head days = Some 1).
Proof.
  intros Hp.
  destruct (proj1 (generate_simple_plan_returns _ _ _ _ _ _) Hp)
    as (st & Hrun & Hplan).
  destruct (run_plan_returns_cases _ _ _ _ _ _ Hrun)
    as (q & Hquota & [[_ Hnil]|[_ Hq]]).
  - exists []. rewrite <- Hplan, Hnil. split; [done|].
    split; [constructor|done].
  - destruct (run_plan_spec _ _ _ _ _ _ _ Hquota Hq Hrun) as [Hinv _].
    destruct (inv_days _ _ Hinv) as (days & Hmap & Hsort & _ & Hhead).
    exists days. rewrite <- Hplan. split; [exact Hmap|]. split; [done|].
    intros Hne. destruct days as [|d days]; [|by subst d].
    destruct (plan st); simplify_eq/=.
Qed.

Lemma day_numbers_nondecreasing_witness :
  ∃ days : list Z,
    map day phys_plan = map (λ n, "Day " +:+ pretty n) days ∧
    StronglySorted Z.le days ∧
    (phys_plan ≠ [] → head days = Some 1).
Proof.
  apply (day_numbers_nondecreasing 2 phys_courses phys_topics phys_levels
           (Number 1) phys_plan).
  vm_compute. reflexivity.
Defined.

(** C7. Every chunk of a returned plan has [break_after] 10 when its
    minutes are 60 or more, 5 when they are 30 or more and under 60, and
    [None] otherwise. *)
Theorem break_after_by_minutes fuel courses topics difficulties
    daily_hours p :
  generate_simple_plan fuel courses topics difficulties daily_hours
    = Returns p →
  Forall (λ c,
    (60 ≤ suggested_minutes c → break_after c = Some 10) ∧
    (30 ≤ suggested_minutes c < 60 → break_after c = Some 5) ∧
    (suggested_minutes c < 30 → break_after c = None)) p.
Proof.
  intros (st & Hrun & <-)%generate_simple_plan_returns.
  change (Forall break_rule (plan st)).
  unfold run_plan in Hrun.
  destruct (daily_quota_of daily_hours) as [e|q]; [done|].
  destruct topics as [|tpc topics]; [by injection Hrun as <-|].
  destruct (for_loop _ _ _ _ _ _ _ _) as [st'|] eqn:Hfor; [|done].
  injection Hrun as ->.
  by apply for_loop_break_rule in Hfor.
Qed.

Lemma break_after_by_minutes_witness :
  Forall (λ c,
    (60 ≤ suggested_minutes c → break_after c = Some 10) ∧
    (30 ≤ suggested_minutes c < 60 → break_after c = Some 5) ∧
    (suggested_minutes c < 30 → break_after c = None))
    [ {| day := "Day 1"; course := "Math"; topic := "Algebra";
         difficulty := "easy"; suggested_minutes := 115;
         ai_hint := pick_hint "easy"; break_after := Some 10 |} ].
Proof.
  apply (break_after_by_minutes 1 ["Math"] ["Algebra"] ["easy"] (Number 2)).
  vm_compute. reflexivity.
Defined.



(** C9. A [daily_hours] that parses to NaN or to an infinity is not turned
    into the default: [int(hours * 60)] is outside the [try] and raises
    [ValueError] or [OverflowError], also when the topic list is empty. *)
Theorem non_finite_hours_raise fuel courses topics difficulties :
  generate_simple_plan fuel courses topics difficulties (Number nan)
    = Raises ValueError ∧
  generate_simple_plan fuel courses topics difficulties (Number infinity)
    = Raises OverflowError ∧
  generate_simple_plan fuel [] [] [] (Number nan) = Raises ValueError.
Proof.
  repeat split; by apply generate_simple_plan_raises.
Qed.

(** C10. A returned plan is one non-empty block of chunks per topic, block
    [i] for topic [i]; the chunks of a topic whose index is past the end of
    [courses] have the course "General", and those of a topic whose index
    is past the end of [difficulties] have the difficulty "medium". Under a
    positive quota the function does return. *)
Theorem short_lists_fall_back courses topics difficulties daily_hours :
  (∀ fuel p,
     generate_simple_plan fuel courses topics difficulties daily_hours
       = Returns p →
     ∃ blocks, p = concat blocks ∧ length blocks = length topics ∧
       ∀ i blk, blocks !! i = Some blk →
         blk ≠ [] ∧
         Forall (λ c,
           topics !! i = Some (topic c) ∧
           ((length courses ≤ i)%nat → course c = "General") ∧
           ((length difficulties ≤ i)%nat → difficulty c = "medium")) blk) ∧
  (∀ q, daily_quota_of daily_hours = inr q → 0 < q →
     ∃ fuel p,
       generate_simple_plan fuel courses topics difficulties daily_hours
         = Returns p).
Proof.
  split; [|intros q; by apply generate_simple_plan_terminates].
  intros fuel p Hp.
  destruct (proj1 (generate_simple_plan_returns _ _ _ _ _ _) Hp)
    as (st & Hrun & Hplan).
  destruct (run_plan_returns_cases _ _ _ _ _ _ Hrun)
    as (q & Hquota & [[-> Hnil]|[_ Hq]]).
  { exists []. rewrite <- Hplan, Hnil. split; [done|]. split; [done|].
    by intros i blk. }
  destruct (plan_blocks _ _ _ _ _ _ _ Hquota Hq Hp)
    as (_ & blocks & _ & _ & _ & Hcat & Hlen & Hblocks).
  exists blocks. split; [done|]. split; [done|]. intros i blk Hi.
  destruct (lookup_lt_is_Some_2 topics i) as [tpc Htpc].
  { rewrite <- Hlen. by eapply lookup_lt_Some. }
  destruct (Hblocks i tpc Htpc)
    as (blk' & Hblk' & Hall & _ & c & rest & -> & _).
  assert (blk = c :: rest) as -> by congruence.
  split; [done|]. eapply Forall_impl; [exact Hall|]. simpl.
  intros c' (Hcourse & Htopic & Hlevel & _).
  split; [by rewrite Htopic|]. split; intros Hshort.
  - rewrite Hcourse. unfold course_at. by rewrite lookup_ge_None_2.
  - rewrite Hlevel. unfold level_at. by rewrite lookup_ge_None_2.
Qed.

(** The short lists at work: no course and one difficulty for three
    topics. *)
Example short_lists_example :
  generate_simple_plan 40 [] ["a"; "b"; "c"] ["hard"] Falsy
  = Returns
      [ {| day := "Day 1"; course := "General"; topic := "a";
           difficulty := "hard"; suggested_minutes := 50;
           ai_hint := pick_hint "hard"; break_after := Some 5 |};
        {| day := "Day 1"; course := "General"; topic := "b";
           difficulty := "medium"; suggested_minutes := 40;
           ai_hint := pick_hint "medium"; break_after := Some 5 |};
        {| day := "Day 1"; course := "General"; topic := "c";
           difficulty := "medium"; suggested_minutes := 30;
           ai_hint := pick_hint "medium"; break_after := Some 5 |};
        {| day := "Day 2"; course := "General"; topic := "c";
           difficulty := "medium"; suggested_minutes := 10;
           ai_hint := pick_hint "medium"; break_after := None |} ].
Proof. vm_compute. reflexivity. Qed.

(** ** How the days are filled *)

Lemma rollover_cases q st :
  0 < q → inv q st →
  used_today st = q ∧ day_no (rollover q st) = day_no st + 1 ∧
    used_today (rollover q st) = 0 ∧ plan st ≠ [] ∨
  used_today st < q ∧ rollover q st = st.
Proof.
  intros Hq Hinv. unfold rollover.
  destruct (Z.geb_spec (used_today st) q) as [Hge|Hlt]; [left|by right].
  pose proof (inv_used _ _ Hinv). repeat split; [lia|].
  destruct (inv_days _ _ Hinv) as (ds & Hmap & _ & _ & Hhead).
  intros Hnil. rewrite Hnil in Hmap. destruct ds; [lia|done].
Qed.

Lemma day_no_pos q st : inv q st → 1 ≤ day_no st.
Proof.
  intros Hinv. destruct (inv_days _ _ Hinv) as (ds & _ & _ & Hle & Hhead).
  destruct ds as [|d ds]; [lia|].
  apply Forall_cons in Hle as [? _]. lia.
Qed.

Lemma minutes_on_snoc d (l : list chunk) c :
  minutes_on d (l ++ [c])
  = minutes_on d l + if decide (day c = d) then suggested_minutes c else 0.
Proof. by rewrite minutes_on_app, minutes_on_singleton. Qed.

Lemma minutes_on_absent s (l : list chunk) :
  s ∉ map day l → minutes_on s l = 0.
Proof.
  induction l as [|c l IH]; [done|]. simpl. intros Hnot.
  apply not_elem_of_cons in Hnot as [Hne Hnot].
  change (c :: l) with ([c] ++ l).
  rewrite minutes_on_app, minutes_on_singleton, IH by done.
  by rewrite decide_False.
Qed.

(** An iteration keeps the days packed. *)
Lemma while_body_packed q crs tpc level r st :
  0 < q → inv q st → packed q st → 0 < r →
  packed q (while_body q crs tpc level r st).2.
Proof.
  intros Hq Hinv [Htotal Hfull Hlast Hdays] Hr.
  pose proof (inv_used _ _ Hinv) as Hused.
  pose proof (inv_on _ _ Hinv) as Hon.
  pose proof (day_no_pos _ _ Hinv) as Hday.
  rewrite while_body_eq. cbv zeta.
  assert (Hm : ∀ st1, suggested_minutes (carved q crs tpc level r st1)
                      = Z.min r (q - used_today st1)) by done.
  assert (Hd : ∀ st1, day (carved q crs tpc level r st1)
                      = day_label (day_no st1)) by done.
  destruct (rollover_cases q st Hq Hinv)
    as [(Hfullday & Hnext & Hzero & Hne)|[Hlt ->]].
  - generalize dependent (rollover q st). intros st1 Hnext Hzero.
    specialize (Hm st1). specialize (Hd st1).
    generalize dependent (carved q crs tpc level r st1).
    intros c Hm1 Hd1. split; simpl.
    + rewrite minutes_total_app. simpl. nia.
    + intros d Hdlt. rewrite minutes_on_snoc, decide_False.
      * destruct (decide (d = day_no st)) as [->|]; [lia|].
        rewrite Hfull; lia.
      * rewrite Hd1. intros Heq%day_label_inj. lia.
    + intros _. rewrite map_app. simpl. rewrite last_snoc.
      split; [by rewrite Hd1|lia].
    + intros _. rewrite map_app, list_to_set_app_L, Hdays by done.
      rewrite Hnext. replace (day_no st + 1) with (day_no st + 1 * 1) by lia.
      rewrite seqZ_app by lia.
      rewrite map_app, list_to_set_app_L. simpl. rewrite Hd1, Hnext.
      by replace (Z.of_nat 0 + (1 + day_no st)) with (day_no st + 1) by lia.
  - specialize (Hm st). specialize (Hd st).
    generalize dependent (carved q crs tpc level r st).
    intros c Hm1 Hd1. split; simpl.
    + rewrite minutes_total_app. simpl. lia.
    + intros d Hdlt. rewrite minutes_on_snoc, decide_False, Hfull; [lia|lia|].
      rewrite Hd1. intros Heq%day_label_inj. lia.
    + intros _. rewrite map_app. simpl. rewrite last_snoc.
      split; [by rewrite Hd1|lia].
    + intros _. rewrite map_app, list_to_set_app_L. simpl. rewrite Hd1.
      destruct (decide (plan st = [])) as [Hnil|Hne].
      * destruct (inv_days _ _ Hinv) as (ds & Hmap & _ & _ & Hhead).
        rewrite Hnil in *. destruct ds; [|done].
        destruct Hhead as [-> _]. simpl.
        by rewrite (left_id_L ∅ (∪)).
      * rewrite Hdays by done.
        assert (day_label (day_no st)
                  ∈ map day_label (seqZ 1 (day_no st))) as Hin.
        { apply list_elem_of_fmap_2, elem_of_seqZ. lia. }
        apply (elem_of_list_to_set (C:=gset string)) in Hin.
        rewrite (right_id_L ∅ (∪)), (comm_L (∪)).
        apply subseteq_union_1_L. by apply singleton_subseteq_l.
Qed.

(** What every iteration keeps, the loops keep. *)
Lemma while_loop_preserves (P : locals → Prop) q crs tpc level fuel :
  (∀ r st, 0 < r → P st → P (while_body q crs tpc level r st).2) →
  ∀ r st st', P st →
    while_loop fuel q crs tpc level r st = Some st' → P st'.
Proof.
  intros Hbody. induction fuel as [|fuel IH]; intros r st st' HP;
    rewrite while_loop_unfold;
    destruct (Z.gtb_spec r 0) as [Hpos|Hzero]; try done;
    try (by intros [= <-]).
  apply IH. by apply Hbody.
Qed.

Lemma for_loop_preserves (P : locals → Prop) q base courses difficulties
    fuel :
  (∀ crs tpc level r st,
     0 < r → P st → P (while_body q crs tpc level r st).2) →
  ∀ topics i st st', P st →
    for_loop fuel q base courses difficulties i topics st = Some st' →
    P st'.
Proof.
  intros Hbody. induction topics as [|tpc topics IH]; intros i st st' HP;
    simpl.
  - by intros [= <-].
  - destruct (while_loop _ _ _ _ _ _ _) as [st1|] eqn:Hwhile; [|done].
    apply IH. eapply while_loop_preserves; [|exact HP|exact Hwhile].
    apply Hbody.
Qed.

Lemma packed_start st :
  plan st = [] → day_no st = 1 → used_today st = 0 → ∀ q, packed q st.
Proof.
  intros Hplan Hday Hused q. split; rewrite ?Hplan, ?Hday, ?Hused;
    [simpl; lia|intros; lia|done|done].
Qed.

(** The locals at the [return] under a positive quota. *)
Lemma run_plan_packed fuel courses topics difficulties daily_hours q st :
  daily_quota_of daily_hours = inr q → 0 < q →
  run_plan fuel courses topics difficulties daily_hours = Returns st →
  inv q st ∧ packed q st.
Proof.
  intros Hquota Hq. destruct topics as [|tpc topics].
  - rewrite (run_plan_empty _ _ _ _ q) by done. intros [= <-]. split.
    + split; simpl; [lia|done|by apply days_ok_start|done|done].
    + by apply packed_start.
  - rewrite (run_plan_nonempty _ _ _ _ _ _ q) by done.
    destruct (for_loop _ _ _ _ _ _ _ _) as [st'|] eqn:Hfor; [|done].
    intros [= <-].
    eapply (for_loop_preserves (λ st, inv q st ∧ packed q st));
      [|split; [by apply inv_init|by apply packed_start]|exact Hfor].
    intros crs tpc' level r st0 Hr [Hinv Hpacked]. split.
    + by destruct (while_body_inv q crs tpc' level r st0 Hq Hinv Hr)
        as (? & ? & ? & ? & _).
    + by apply while_body_packed.
Qed.

(** The chunks of one run of the [while] loop are on days that follow one
    another, from the day the first iteration works on. *)
Lemma while_loop_days q crs tpc level fuel : ∀ r st st',
  0 < q → inv q st → 0 < r →
  while_loop fuel q crs tpc level r st = Some st' →
  ∃ blk, plan st' = plan st ++ blk ∧ blk ≠ [] ∧
    map day blk
      = map day_label (seqZ (day_no (rollover q st)) (Z.of_nat (length blk))) ∧
    day_no st' = day_no (rollover q st) + Z.of_nat (length blk) - 1.
Proof.
  induction fuel as [|fuel IH]; intros r st st' Hq Hinv Hr;
    rewrite while_loop_unfold;
    destruct (Z.gtb_spec r 0) as [_|Hzero]; try done; try lia.
  destruct (while_body_inv q crs tpc level r st Hq Hinv Hr)
    as (c & Hfst & Hplan & Hinv1 & _ & Hc & _).
  assert (Hbody : day c = day_label (day_no (rollover q st)) ∧
            day_no (while_body q crs tpc level r st).2
              = day_no (rollover q st) ∧
            (0 < (while_body q crs tpc level r st).1 →
             used_today (while_body q crs tpc level r st).2 = q)).
  { revert Hplan Hfst. rewrite while_body_eq. cbv zeta. simpl.
    intros [= <-]%app_inv_head _. simpl. repeat split. lia. }
  destruct Hbody as (Hday & Hno & Hfull).
  destruct (while_body q crs tpc level r st) as [r1 st1]. simpl in *.
  destruct (decide (0 < r1)) as [Hpos|Hdone].
  - intros Hloop.
    destruct (IH _ _ _ Hq Hinv1 Hpos Hloop)
      as (blk & Hplan' & _ & Hdays & Hlast).
    destruct (rollover_cases q st1 Hq Hinv1)
      as [(_ & Hnext & _)|[Hlt _]]; [|lia].
    rewrite Hnext, Hno in Hdays, Hlast.
    exists (c :: blk). split. { by rewrite Hplan', Hplan, <- app_assoc. }
    split; [done|]. split.
    + simpl length. rewrite Nat2Z.inj_succ, seqZ_cons by lia. simpl.
      rewrite Hday. f_equal. rewrite Hdays. do 2 f_equal; lia.
    + simpl length. lia.
  - rewrite while_loop_unfold.
    destruct (Z.gtb_spec r1 0) as [?|_]; [lia|].
    intros [= <-]. exists [c]. simpl. split; [done|]. split; [done|].
    split; [by rewrite Hday|lia].
Qed.

(** The blocks of the [for] loop with their days: each block is on days
    that follow one another, and a block costs one chunk, plus one for
    every day the loop moves on. *)
Lemma for_loop_days q base courses difficulties fuel topics : ∀ i st st',
  0 < q → inv q st →
  for_loop fuel q base courses difficulties i topics st = Some st' →
  day_no st ≤ day_no st' ∧
  ∃ blocks, plan st' = plan st ++ concat blocks ∧
    blocks_spec q base courses difficulties i topics (plan st) blocks ∧
    Forall (λ blk, ∃ d0, day_no st ≤ d0 ∧
       map day blk = map day_label (seqZ d0 (Z.of_nat (length blk))))
      blocks ∧
    Z.of_nat (length (concat blocks))
      ≤ Z.of_nat (length topics) + day_no st' - day_no st.
Proof.
  induction topics as [|tpc topics IH]; intros i st st' Hq Hinv; simpl.
  - intros [= <-]. split; [lia|]. exists []. simpl.
    rewrite app_nil_r. repeat split; [constructor|simpl; lia].
  - destruct (while_loop _ _ _ _ _ _ _) as [st1|] eqn:Hwhile; [|done].
    pose proof (suggested_for_pos base (level_at difficulties i)) as Hsug.
    assert (0 ≤ suggested_for base (level_at difficulties i)) as Hsug0
      by lia.
    assert (0 < suggested_for base (level_at difficulties i)) as Hsug1
      by lia.
    destruct (while_loop_spec _ _ _ _ _ _ _ _ Hq Hinv Hsug0 Hwhile)
      as (Hinv1 & Hmono & blk & Hplan & Hall & Hsum & Hhead).
    destruct (while_loop_days _ _ _ _ _ _ _ _ Hq Hinv Hsug1 Hwhile)
      as (blk' & Hplan' & _ & Hdays & Hlast).
    assert (blk' = blk) as -> by (apply (app_inv_head (plan st)); congruence).
    assert (day_no st ≤ day_no (rollover q st)) as Hroll.
    { destruct (rollover_cases q st Hq Hinv) as [(_ & -> & _)|[_ ->]]; lia. }
    intros Hfor.
    destruct (IH _ _ _ Hq Hinv1 Hfor)
      as (Hmono' & blocks & Hplan'' & Hblocks & Hdays' & Hcount).
    split; [lia|]. exists (blk :: blocks). simpl. split.
    { by rewrite Hplan'', Hplan, <- app_assoc. }
    split. { split; [|by rewrite <- Hplan]. split; [done|].
             split; [done|]. apply Hhead. lia. }
    split.
    + constructor; [by exists (day_no (rollover q st))|].
      eapply Forall_impl; [exact Hdays'|]. simpl.
      intros b (d0 & Hd0 & Hb). exists d0. split; [lia|done].
    + rewrite length_app. lia.
Qed.

(** A returned plan, cut into its blocks, with the days of each block. *)
Lemma plan_days fuel courses topics difficulties daily_hours q p :
  daily_quota_of daily_hours = inr q → 0 < q →
  generate_simple_plan fuel courses topics difficulties daily_hours
    = Returns p →
  ∃ st blocks,
    run_plan fuel courses topics difficulties daily_hours = Returns st ∧
    plan st = p ∧ p = concat blocks ∧
    blocks_spec q (base_of q topics) courses difficulties 0 topics []
      blocks ∧
    Forall (λ blk, ∃ d0, 1 ≤ d0 ∧
       map day blk = map day_label (seqZ d0 (Z.of_nat (length blk))))
      blocks ∧
    Z.of_nat (length p) ≤ Z.of_nat (length topics) + day_no st - 1.
Proof.
  intros Hquota Hq (st & Hrun & <-)%generate_simple_plan_returns.
  exists st. revert Hrun. destruct topics as [|tpc topics].
  - rewrite (run_plan_empty _ _ _ _ q) by done. intros [= <-].
    exists []. simpl. repeat split; [constructor|lia].
  - rewrite (run_plan_nonempty _ _ _ _ _ _ q) by done.
    destruct (for_loop _ _ _ _ _ _ _ _) as [st'|] eqn:Hfor; [|done].
    intros [= <-].
    destruct (for_loop_days _ _ _ _ _ _ _ _ _ Hq (inv_init q Hq) Hfor)
      as (_ & blocks & Hplan & Hblocks & Hdays & Hcount).
    exists blocks. simpl in Hplan, Hblocks, Hdays, Hcount.
    rewrite Hplan. repeat split; try done.
Qed.

(** The minutes of the blocks are the minutes the topics are given. *)
Lemma blocks_spec_total q base courses difficulties topics :
  ∀ i before blocks,
    blocks_spec q base courses difficulties i topics before blocks →
    minutes_total (concat blocks) = suggested_from base difficulties i topics.
Proof.
  induction topics as [|tpc topics IH]; intros i before [|blk blocks];
    simpl; try done.
  intros [(_ & Hsum & _) Hrest]. rewrite minutes_total_app, Hsum.
  by rewrite (IH _ _ _ Hrest).
Qed.

Lemma blocks_spec_length q base courses difficulties topics :
  ∀ i before blocks,
    blocks_spec q base courses difficulties i topics before blocks →
    (length topics ≤ length (concat blocks))%nat.
Proof.
  induction topics as [|tpc topics IH]; intros i before [|blk blocks];
    simpl; try done.
  intros [(_ & _ & c & rest & -> & _) Hrest]. apply IH in Hrest.
  rewrite length_app. simpl. lia.
Qed.

(** The day numbers behind a label that occurs in the plan. *)
Lemma day_of_label q st s :
  inv q st → s ∈ map day (plan st) →
  ∃ d, s = day_label d ∧ 1 ≤ d ≤ day_no st.
Proof.
  intros Hinv Hin. destruct (inv_days _ _ Hinv) as (ds & Hmap & _ & Hle & _).
  rewrite Hmap in Hin. apply list_elem_of_fmap in Hin as (d & -> & Hd).
  exists d. split; [done|]. by apply (proj1 (Forall_forall _ _) Hle).
Qed.

(** ** Further properties of the plan generator *)

(** X1. Once [int] has given a quota, the function returns a plan exactly
    when there is no topic or the quota is positive. *)
Theorem returns_exactly_when courses topics difficulties daily_hours q :
  daily_quota_of daily_hours = inr q →
  (∃ fuel p,
     generate_simple_plan fuel courses topics difficulties daily_hours
       = Returns p) ↔
  topics = [] ∨ 0 < q.
Proof.
  intros Hquota. split.
  - intros (fuel & p & (st & Hrun & _)%generate_simple_plan_returns).
    destruct (run_plan_returns_cases _ _ _ _ _ _ Hrun)
      as (q' & Hq' & [[-> _]|[_ Hpos]]); [by left|].
    right. congruence.
  - intros [->|Hq].
    + exists 0%nat, []. by eapply generate_simple_plan_empty.
    + by eapply generate_simple_plan_terminates.
Qed.

Lemma returns_exactly_when_witness :
  daily_quota_of (Number (-1)) = inr (-60) ∧
  ((∃ fuel p,
      generate_simple_plan fuel ["Math"] ["Algebra"] ["easy"] (Number (-1))
        = Returns p) ↔
   ["Algebra"] = [] ∨ 0 < -60).
Proof.
  split; [reflexivity|].
  apply (returns_exactly_when ["Math"] ["Algebra"] ["easy"] (Number (-1))
           (-60)).
  reflexivity.
Defined.

(** X2. Under a positive quota no day of a returned plan carries more
    minutes than the quota. *)
Theorem no_day_over_quota fuel courses topics difficulties daily_hours q p :
  daily_quota_of daily_hours = inr q → 0 < q →
  generate_simple_plan fuel courses topics difficulties daily_hours
    = Returns p →
  ∀ s, minutes_on s p ≤ q.
Proof.
  intros Hquota Hq (st & Hrun & <-)%generate_simple_plan_returns s.
  destruct (run_plan_packed _ _ _ _ _ _ _ Hquota Hq Hrun) as [Hinv Hpacked].
  destruct (decide (s ∈ map day (plan st))) as [Hin|Hout];
    [|rewrite minutes_on_absent by done; lia].
  destruct (day_of_label _ _ _ Hinv Hin) as (d & -> & Hd).
  destruct (decide (d = day_no st)) as [->|Hne].
  - rewrite <- (inv_on _ _ Hinv). by destruct (inv_used _ _ Hinv).
  - rewrite (packed_full _ _ Hpacked); lia.
Qed.

Lemma no_day_over_quota_witness :
  daily_quota_of (Number 1) = inr 60 ∧ 0 < 60 ∧
  ∀ s, minutes_on s phys_plan ≤ 60.
Proof.
  split; [reflexivity|]. split; [lia|].
  apply (no_day_over_quota 2 phys_courses phys_topics phys_levels (Number 1));
    [reflexivity|lia|vm_compute; reflexivity].
Defined.

(** X3. Under a positive quota the days of a returned plan are filled in
    order: with the last chunk on day D, every day from 1 to D - 1 carries
    exactly the quota, and day D carries at least one minute. *)
Theorem days_filled_in_order fuel courses topics difficulties daily_hours
    q p :
  topics ≠ [] → daily_quota_of daily_hours = inr q → 0 < q →
  generate_simple_plan fuel courses topics difficulties daily_hours
    = Returns p →
  ∃ D, 1 ≤ D ∧ last (map day p) = Some (day_label D) ∧
    (∀ d, 1 ≤ d < D → minutes_on (day_label d) p = q) ∧
    0 < minutes_on (day_label D) p ≤ q.
Proof.
  intros Hne Hquota Hq (st & Hrun & <-)%generate_simple_plan_returns.
  destruct (run_plan_packed _ _ _ _ _ _ _ Hquota Hq Hrun) as [Hinv Hpacked].
  destruct (run_plan_spec _ _ _ _ _ _ _ Hquota Hq Hrun)
    as (_ & blocks & Hcat & Hblocks).
  apply blocks_spec_length in Hblocks. rewrite <- Hcat in Hblocks.
  assert (plan st ≠ []) as Hplan.
  { destruct topics; [done|]. destruct (plan st); [simpl in *; lia|done]. }
  destruct (packed_last _ _ Hpacked Hplan) as [Hlast Hused].
  exists (day_no st). split; [by eapply day_no_pos|]. split; [done|].
  split; [by apply packed_full|].
  rewrite <- (inv_on _ _ Hinv). destruct (inv_used _ _ Hinv). lia.
Qed.

Lemma days_filled_in_order_witness :
  phys_topics ≠ [] ∧ daily_quota_of (Number 1) = inr 60 ∧ 0 < 60 ∧
  ∃ D, 1 ≤ D ∧ last (map day phys_plan) = Some (day_label D) ∧
    (∀ d, 1 ≤ d < D → minutes_on (day_label d) phys_plan = 60) ∧
    0 < minutes_on (day_label D) phys_plan ≤ 60.
Proof.
  split; [done|]. split; [reflexivity|]. split; [lia|].
  apply (days_filled_in_order 2 phys_courses phys_topics phys_levels
           (Number 1)); [done|reflexivity|lia|vm_compute; reflexivity].
Defined.

(** X4. Under a positive quota the minutes of a returned plan add up to
    the minutes its topics are given, T, and the plan ends on day
    ceil(T / quota): with the last chunk on day D, (D - 1) * quota < T and
    T <= D * quota. *)
Theorem plan_spans_ceiling_days fuel courses topics difficulties
    daily_hours q p :
  topics ≠ [] → daily_quota_of daily_hours = inr q → 0 < q →
  generate_simple_plan fuel courses topics difficulties daily_hours
    = Returns p →
  let T := suggested_from (base_of q topics) difficulties 0 topics in
  minutes_total p = T ∧
  ∃ D, last (map day p) = Some (day_label D) ∧
    (D - 1) * q < T ≤ D * q.
Proof.
  intros Hne Hquota Hq (st & Hrun & <-)%generate_simple_plan_returns T.
  destruct (run_plan_packed _ _ _ _ _ _ _ Hquota Hq Hrun) as [Hinv Hpacked].
  destruct (run_plan_spec _ _ _ _ _ _ _ Hquota Hq Hrun)
    as (_ & blocks & Hcat & Hblocks).
  assert (minutes_total (plan st) = T) as HT.
  { rewrite Hcat. by eapply blocks_spec_total. }
  split; [done|].
  apply blocks_spec_length in Hblocks. rewrite <- Hcat in Hblocks.
  assert (plan st ≠ []) as Hplan.
  { destruct topics; [done|]. destruct (plan st); [simpl in *; lia|done]. }
  destruct (packed_last _ _ Hpacked Hplan) as [Hlast Hused].
  exists (day_no st). split; [done|].
  pose proof (packed_total _ _ Hpacked) as Htotal.
  pose proof (inv_used _ _ Hinv). rewrite <- HT, Htotal. nia.
Qed.

Lemma plan_spans_ceiling_days_witness :
  phys_topics ≠ [] ∧ daily_quota_of (Number 1) = inr 60 ∧ 0 < 60 ∧
  let T := suggested_from (base_of 60 phys_topics) phys_levels 0 phys_topics
  in
  minutes_total phys_plan = T ∧
  ∃ D, last (map day phys_plan) = Some (day_label D) ∧
    (D - 1) * 60 < T ≤ D * 60.
Proof.
  split; [done|]. split; [reflexivity|]. split; [lia|].
  apply (plan_spans_ceiling_days 2 phys_courses phys_topics phys_levels
           (Number 1)); [done|reflexivity|lia|vm_compute; reflexivity].
Defined.

(** X5. Under a positive quota the chunks of one topic are on days that
    follow one another, one chunk a day: the block of topic [i] has the day
    labels of d0, d0 + 1, ..., for some day d0. *)
Theorem topic_chunks_on_consecutive_days fuel courses topics difficulties
    daily_hours q p :
  daily_quota_of daily_hours = inr q → 0 < q →
  generate_simple_plan fuel courses topics difficulties daily_hours
    = Returns p →
  ∃ blocks, p = concat blocks ∧ length blocks = length topics ∧
    ∀ i blk, blocks !! i = Some blk →
      (∃ tpc, topics !! i = Some tpc ∧ Forall (λ c, topic c = tpc) blk) ∧
      ∃ d0, 1 ≤ d0 ∧
        map day blk = map day_label (seqZ d0 (Z.of_nat (length blk))).
Proof.
  intros Hquota Hq Hp.
  destruct (plan_days _ _ _ _ _ _ _ Hquota Hq Hp)
    as (st & blocks & _ & _ & Hcat & Hblocks & Hdays & _).
  apply blocks_spec_lookup in Hblocks as [Hlen Hblocks].
  exists blocks. split; [done|]. split; [done|]. intros i blk Hi. split.
  - destruct (lookup_lt_is_Some_2 topics i) as [tpc Htpc].
    { rewrite <- Hlen. by eapply lookup_lt_Some. }
    exists tpc. split; [done|].
    destruct (Hblocks i tpc Htpc) as (blk' & Hblk' & Hall & _).
    assert (blk' = blk) as -> by congruence.
    eapply Forall_impl; [exact Hall|]. simpl. tauto.
  - by apply (proj1 (Forall_lookup _ _) Hdays i blk).
Qed.

Lemma topic_chunks_on_consecutive_days_witness :
  daily_quota_of (Number 1) = inr 60 ∧ 0 < 60 ∧
  ∃ blocks, phys_plan = concat blocks ∧
    length blocks = length phys_topics ∧
    ∀ i blk, blocks !! i = Some blk →
      (∃ tpc, phys_topics !! i = Some tpc ∧
         Forall (λ c, topic c = tpc) blk) ∧
      ∃ d0, 1 ≤ d0 ∧
        map day blk = map day_label (seqZ d0 (Z.of_nat (length blk))).
Proof.
  split; [reflexivity|]. split; [lia|].
  apply (topic_chunks_on_consecutive_days 2 phys_courses phys_topics
           phys_levels (Number 1) 60);
    [reflexivity|lia|vm_compute; reflexivity].
Defined.

(** X6. Under a positive quota a returned plan has at least one chunk per
    topic and at most one per topic plus one for every day after the first:
    with the last chunk on day D, its length is between the number of
    topics and the number of topics + D - 1. *)
Theorem chunk_count_bounds fuel courses topics difficulties daily_hours
    q p :
  topics ≠ [] → daily_quota_of daily_hours = inr q → 0 < q →
  generate_simple_plan fuel courses topics difficulties daily_hours
    = Returns p →
  ∃ D, last (map day p) = Some (day_label D) ∧
    Z.of_nat (length topics) ≤ Z.of_nat (length p)
      ≤ Z.of_nat (length topics) + D - 1.
Proof.
  intros Hne Hquota Hq Hp.
  destruct (plan_days _ _ _ _ _ _ _ Hquota Hq Hp)
    as (st & blocks & Hrun & Hplan & Hcat & Hblocks & _ & Hcount).
  destruct (run_plan_packed _ _ _ _ _ _ _ Hquota Hq Hrun) as [Hinv Hpacked].
  apply blocks_spec_length in Hblocks. rewrite <- Hcat in Hblocks.
  assert (plan st ≠ []) as Hnonempty.
  { rewrite Hplan. destruct topics; [done|].
    destruct p; [simpl in *; lia|done]. }
  destruct (packed_last _ _ Hpacked Hnonempty) as [Hlast _].
  exists (day_no st). rewrite <- Hplan at 1. split; [done|]. lia.
Qed.

Lemma chunk_count_bounds_witness :
  phys_topics ≠ [] ∧ daily_quota_of (Number 1) = inr 60 ∧ 0 < 60 ∧
  ∃ D, last (map day phys_plan) = Some (day_label D) ∧
    Z.of_nat (length phys_topics) ≤ Z.of_nat (length phys_plan)
      ≤ Z.of_nat (length phys_topics) + D - 1.
Proof.
  split; [done|]. split; [reflexivity|]. split; [lia|].
  apply (chunk_count_bounds 2 phys_courses phys_topics phys_levels
           (Number 1) 60); [done|reflexivity|lia|vm_compute; reflexivity].
Defined.

(** X7. The number of distinct day labels of a returned plan, which the
    handler reports as [total_days], is the day number of its last chunk:
    every day from 1 to the last occurs. *)
Theorem total_days_is_last_day fuel courses topics difficulties daily_hours
    q p :
  topics ≠ [] → daily_quota_of daily_hours = inr q → 0 < q →
  generate_simple_plan fuel courses topics difficulties daily_hours
    = Returns p →
  ∃ D, last (map day p) = Some (day_label D) ∧
    total_days p = Z.to_nat D ∧
    ∀ d, 1 ≤ d ≤ D → day_label d ∈ map day p.
Proof.
  intros Hne Hquota Hq (st & Hrun & <-)%generate_simple_plan_returns.
  destruct (run_plan_packed _ _ _ _ _ _ _ Hquota Hq Hrun) as [Hinv Hpacked].
  destruct (run_plan_spec _ _ _ _ _ _ _ Hquota Hq Hrun)
    as (_ & blocks & Hcat & Hblocks).
  apply blocks_spec_length in Hblocks. rewrite <- Hcat in Hblocks.
  assert (plan st ≠ []) as Hplan.
  { destruct topics; [done|]. destruct (plan st); [simpl in *; lia|done]. }
  destruct (packed_last _ _ Hpacked Hplan) as [Hlast _].
  pose proof (packed_days _ _ Hpacked Hplan) as Hdays.
  exists (day_no st). split; [done|]. split.
  - unfold total_days. rewrite Hdays, size_list_to_set.
    + by rewrite length_map, length_seqZ.
    + apply NoDup_fmap_2; [|apply NoDup_seqZ].
      intros a b. apply day_label_inj.
  - intros d Hd.
    apply (elem_of_list_to_set (C:=gset string)). rewrite Hdays.
    apply elem_of_list_to_set, list_elem_of_fmap_2, elem_of_seqZ. lia.
Qed.

Lemma total_days_is_last_day_witness :
  phys_topics ≠ [] ∧ daily_quota_of (Number 1) = inr 60 ∧ 0 < 60 ∧
  ∃ D, last (map day phys_plan) = Some (day_label D) ∧
    total_days phys_plan = Z.to_nat D ∧
    ∀ d, 1 ≤ d ≤ D → day_label d ∈ map day phys_plan.
Proof.
  split; [done|]. split; [reflexivity|]. split; [lia|].
  apply (total_days_is_last_day 2 phys_courses phys_topics phys_levels
           (Number 1) 60); [done|reflexivity|lia|vm_compute; reflexivity].
Defined.

(** X8. When [courses] and [difficulties] are as long as [topics], as the
    handler builds them, the chunks of topic [i] carry [courses[i]] and
    [difficulties[i]]: the fallbacks "General" and "medium" are not
    used. *)
Theorem equal_lists_no_fallback fuel courses topics difficulties daily_hours
    p :
  length courses = length topics → length difficulties = length topics →
  generate_simple_plan fuel courses topics difficulties daily_hours
    = Returns p →
  ∃ blocks, p = concat blocks ∧ length blocks = length topics ∧
    ∀ i blk, blocks !! i = Some blk →
      ∃ crs tpc level,
        courses !! i = Some crs ∧ topics !! i = Some tpc ∧
        difficulties !! i = Some level ∧
        Forall (λ c, course c = crs ∧ topic c = tpc ∧ difficulty c = level)
          blk.
Proof.
  intros Hcourses Hlevels Hp.
  destruct (proj1 (generate_simple_plan_returns _ _ _ _ _ _) Hp)
    as (st & Hrun & Hplan).
  destruct (run_plan_returns_cases _ _ _ _ _ _ Hrun)
    as (q & Hquota & [[-> Hnil]|[_ Hq]]).
  { exists []. rewrite <- Hplan, Hnil. split; [done|]. split; [done|].
    by intros i blk. }
  destruct (plan_blocks _ _ _ _ _ _ _ Hquota Hq Hp)
    as (_ & blocks & _ & _ & _ & Hcat & Hlen & Hblocks).
  exists blocks. split; [done|]. split; [done|]. intros i blk Hi.
  pose proof (lookup_lt_Some _ _ _ Hi) as Hlt.
  destruct (lookup_lt_is_Some_2 topics i) as [tpc Htpc]; [lia|].
  destruct (lookup_lt_is_Some_2 courses i) as [crs Hcrs]; [lia|].
  destruct (lookup_lt_is_Some_2 difficulties i) as [level Hlevel]; [lia|].
  exists crs, tpc, level. repeat (split; [done|]).
  destruct (Hblocks i tpc Htpc) as (blk' & Hblk' & Hall & _).
  assert (blk' = blk) as -> by congruence.
  eapply Forall_impl; [exact Hall|]. simpl.
  unfold course_at, level_at. rewrite Hcrs, Hlevel. simpl. tauto.
Qed.

Lemma equal_lists_no_fallback_witness :
  length phys_courses = length phys_topics ∧
  length phys_levels = length phys_topics ∧
  ∃ blocks, phys_plan = concat blocks ∧
    length blocks = length phys_topics ∧
    ∀ i blk, blocks !! i = Some blk →
      ∃ crs tpc level,
        phys_courses !! i = Some crs ∧ phys_topics !! i = Some tpc ∧
        phys_levels !! i = Some level ∧
        Forall (λ c, course c = crs ∧ topic c = tpc ∧ difficulty c = level)
          blk.
Proof.
  split; [done|]. split; [done|].
  apply (equal_lists_no_fallback 2 phys_courses phys_topics phys_levels
           (Number 1)); [done|done|vm_compute; reflexivity].
Defined.

(** ** The handlers *)

Section extract_topics_facts.
Variables (strip lower : string → string).

Lemma extract_topics_cons i td topics_data :
  extract_topics strip lower i (td :: topics_data) =
  let rest := extract_topics strip lower (S i) topics_data in
  if decide (strip (default EmptyString (td_topic td)) = EmptyString)
  then rest
  else (strip_or strip (default EmptyString (td_course td))
          ("Subject " +:+ pretty (i + 1)%nat) :: rest.1.1,
        strip (default EmptyString (td_topic td)) :: rest.1.2,
        lower (default "medium" (td_difficulty td)) :: rest.2).
Proof.
  simpl. destruct (extract_topics strip lower (S i) topics_data) as [[cs ts] ds].
  by destruct (decide _).
Qed.

Lemma extract_topics_shape topics_data : ∀ i,
  let r := extract_topics strip lower i topics_data in
  length r.1.1 = length r.1.2 ∧ length r.2 = length r.1.2 ∧
  (length r.1.2 ≤ length topics_data)%nat ∧
  Forall (λ t, t ≠ EmptyString) r.1.2 ∧
  Forall (λ c, c ≠ EmptyString) r.1.1 ∧
  r.1.2 = filter (λ t, t ≠ EmptyString)
            (map (λ td, strip (default EmptyString (td_topic td)))
               topics_data).
Proof.
  induction topics_data as [|td l IH]; intros i.
  - simpl. repeat split; constructor.
  - cbv zeta. rewrite extract_topics_cons. cbv zeta.
    destruct (IH (S i)) as (Hc & Hd & Hlen & Hne & Hcne & Hfilter).
    simpl map. rewrite filter_cons.
    destruct (decide (strip (default EmptyString (td_topic td))
                      = EmptyString)) as [Hblank|Hblank]; simpl.
    + rewrite decide_False by (by intros []).
      repeat split; try done. lia.
    + rewrite decide_True by done.
      repeat split; try (simpl; lia); try (by constructor); [|by f_equal].
      constructor; [|done]. unfold strip_or. case_decide; [|done].
      unfold day_label. by destruct (pretty (i + 1)%nat).
Qed.

(** Where an extracted entry comes from. *)
Lemma extract_topics_lookup topics_data : ∀ i j t,
  (extract_topics strip lower i topics_data).1.2 !! j = Some t →
  ∃ k td, topics_data !! k = Some td ∧ (j ≤ k)%nat ∧
    t = strip (default EmptyString (td_topic td)) ∧ t ≠ EmptyString ∧
    (extract_topics strip lower i topics_data).1.1 !! j
      = Some (strip_or strip (default EmptyString (td_course td))
                ("Subject " +:+ pretty (i + k + 1)%nat)) ∧
    (extract_topics strip lower i topics_data).2 !! j
      = Some (lower (default "medium" (td_difficulty td))).
Proof.
  induction topics_data as [|td l IH]; intros i j t; [done|].
  rewrite extract_topics_cons. cbv zeta.
  destruct (decide (strip (default EmptyString (td_topic td))
                    = EmptyString)) as [Hblank|Hblank].
  - intros Hj. destruct (IH _ _ _ Hj) as (k & td' & Hk & Hjk & Ht & Hne & Hc & Hd).
    exists (S k), td'. simpl. repeat split; try done; [lia|].
    by replace (i + S k + 1)%nat with (S i + k + 1)%nat by lia.
  - destruct j as [|j]; simpl.
    + intros [= <-]. exists 0%nat, td. simpl.
      repeat split; try done. by rewrite Nat.add_0_r.
    + intros Hj.
      destruct (IH _ _ _ Hj) as (k & td' & Hk & Hjk & Ht & Hne & Hc & Hd).
      exists (S k), td'. simpl. repeat split; try done; [lia|].
      by replace (i + S k + 1)%nat with (S i + k + 1)%nat by lia.
Qed.
End extract_topics_facts.

(** The header [Bearer t], with or without more text after a space. *)
Lemma split_space_token t rest :
  no_space t = true →
  split_space t = [t] ∧
  split_space (t +:+ String Ascii.Space rest) = t :: split_space rest.
Proof.
  induction t as [|a t IH]; simpl.
  - done.
  - intros [Ha Ht]%andb_prop. destruct (IH Ht) as [-> ->].
    by destruct (Ascii.eqb a Ascii.Space).
Qed.

Lemma split_space_bearer x :
  split_space ("Bearer " +:+ x) = "Bearer" :: split_space x.
Proof. by apply (split_space_token "Bearer" x). Qed.

Lemma prefix_bearer x : String.prefix "Bearer " ("Bearer " +:+ x) = true.
Proof. by destruct x. Qed.

(** A plan for some topic is never empty. *)
Lemma generate_simple_plan_nonempty fuel courses topics difficulties
    daily_hours p :
  topics ≠ [] →
  generate_simple_plan fuel courses topics difficulties daily_hours
    = Returns p →
  p ≠ [].
Proof.
  intros Hne (st & Hrun & <-)%generate_simple_plan_returns.
  destruct (run_plan_returns_cases _ _ _ _ _ _ Hrun)
    as (q & Hquota & [[-> _]|[_ Hq]]); [done|].
  destruct (run_plan_spec _ _ _ _ _ _ _ Hquota Hq Hrun)
    as (_ & blocks & Hcat & Hblocks).
  apply blocks_spec_length in Hblocks. rewrite <- Hcat in Hblocks.
  destruct topics; [done|]. destruct (plan st); [simpl in *; lia|done].
Qed.

Section generate_plan_facts.
Variables (strip lower : string → string).

(** How [generate_plan] comes to answer 201. *)
Lemma generate_plan_created fuel auth_header data new_id now st
    pid student exam dh p n d st' :
  generate_plan strip lower fuel auth_header data new_id now st
    = Some (PlanCreated pid student exam dh p n d, st') →
  ∃ token u rq courses topics difficulties,
    get_user_from_token auth_header st = Some (token, u) ∧
    data = Some rq ∧
    extract_topics strip lower 0 (default [] (rq_topics rq))
      = (courses, topics, difficulties) ∧
    topics ≠ [] ∧
    dh = default (Number 2) (rq_daily_hours rq) ∧
    generate_simple_plan fuel courses topics difficulties dh = Returns p ∧
    p ≠ [] ∧ pid = new_id ∧ n = length topics ∧ d = total_days p ∧
    st' = {| user_by_id := <[token := count_plan u]> (user_by_id st);
             plans_store :=
               <[user_id u :=
                   plans_of st (user_id u) ++
                   [ {| plan_id := new_id; pd_user_id := user_id u;
                        pd_student_name := student; pd_exam_date := exam;
                        pd_daily_hours := dh; pd_created_at := now;
                        pd_plan :=
                          map (λ c, {| task_chunk := c; completed := false;
                                       time_spent := 0 |}) p |} ]]>
                 (plans_store st) |}.
Proof.
  unfold generate_plan.
  destruct (get_user_from_token auth_header st) as [[token u]|]; [|done].
  destruct data as [rq|]; [|done].
  destruct (empty_request rq); [done|].
  destruct (default [] (rq_topics rq)) as [|td tds] eqn:Htopics; [done|].
  destruct (extract_topics strip lower 0 (td :: tds))
    as [[courses topics] difficulties] eqn:Hextract.
  destruct topics as [|tpc topics]; [done|].
  destruct (generate_simple_plan _ _ _ _ _) as [[|c p']| |] eqn:Hplan;
    try done.
  intros [= <- <- <- <- <- <- <- <-].
  exists token, u, rq, courses, (tpc :: topics), difficulties.
  rewrite Htopics. by repeat (split; [done|]).
Qed.

End generate_plan_facts.

Lemma ann_plan_created :
  generate_plan as_is as_is 2 (Some "Bearer u-1") (Some ann_request) "p-1"
    "2025-01-16T09:00:00" ann_store
  = Some (PlanCreated "p-1" "Ann" "2025-06-01" (Number 1) phys_plan 2 2,
          ann_store_1).
Proof. vm_compute. reflexivity. Qed.

Lemma ann_progress_updated :
  update_progress (Some "Bearer u-1") (Some ann_progress) ann_store_1
  = (ProgressUpdated "p-1" 1 true 25, ann_store_2).
Proof. vm_compute. reflexivity. Qed.

(** X9. The lists [courses], [topics] and [difficulties] that
    [generate_plan] builds from the request have the same length; no topic
    and no course in them is empty; and [topics] is the list of the
    stripped topic names of the request that are not blank, in the order of
    the request. *)
Theorem extracted_lists_aligned (strip lower : string → string)
    topics_data courses topics difficulties :
  extract_topics strip lower 0 topics_data = (courses, topics, difficulties) →
  length courses = length topics ∧ length difficulties = length topics ∧
  (length topics ≤ length topics_data)%nat ∧
  Forall (λ t, t ≠ EmptyString) topics ∧
  Forall (λ c, c ≠ EmptyString) courses ∧
  topics = filter (λ t, t ≠ EmptyString)
             (map (λ td, strip (default EmptyString (td_topic td)))
                topics_data).
Proof.
  intros Hextract.
  pose proof (extract_topics_shape strip lower topics_data 0) as Hshape.
  cbv zeta in Hshape. by rewrite Hextract in Hshape.
Qed.

Lemma extracted_lists_aligned_witness :
  length ["Phys"; "Phys"] = length ["Motion"; "Energy"] ∧
  length ["hard"; "hard"] = length ["Motion"; "Energy"] ∧
  (length ["Motion"; "Energy"] ≤ length ann_topics)%nat ∧
  Forall (λ t, t ≠ EmptyString) ["Motion"; "Energy"] ∧
  Forall (λ c, c ≠ EmptyString) ["Phys"; "Phys"] ∧
  ["Motion"; "Energy"]
  = filter (λ t, t ≠ EmptyString)
      (map (λ td, as_is (default EmptyString (td_topic td))) ann_topics).
Proof.
  apply (extracted_lists_aligned as_is as_is ann_topics ["Phys"; "Phys"]
           ["Motion"; "Energy"] ["hard"; "hard"]).
  reflexivity.
Defined.

(** X10. Every entry of the lists that [generate_plan] builds comes from an
    entry of the request, at the same or a later position [k]: its topic
    and difficulty are the stripped topic and the lowered difficulty
    ("medium" when the key is missing) of that entry, and its course is the
    stripped course, or "Subject k+1" when that is blank. *)
Theorem extracted_entry_origin (strip lower : string → string)
    topics_data courses topics difficulties j t :
  extract_topics strip lower 0 topics_data = (courses, topics, difficulties) →
  topics !! j = Some t →
  ∃ k td, topics_data !! k = Some td ∧ (j ≤ k)%nat ∧
    t = strip (default EmptyString (td_topic td)) ∧
    courses !! j
      = Some (strip_or strip (default EmptyString (td_course td))
                ("Subject " +:+ pretty (k + 1)%nat)) ∧
    difficulties !! j
      = Some (lower (default "medium" (td_difficulty td))).
Proof.
  intros Hextract Hj.
  destruct (extract_topics_lookup strip lower topics_data 0 j t)
    as (k & td & Hk & Hjk & Ht & _ & Hc & Hd);
    [by rewrite Hextract|].
  rewrite Hextract in Hc, Hd. by exists k, td.
Qed.

Lemma extracted_entry_origin_witness :
  ∃ k td, ann_topics !! k = Some td ∧ (1 ≤ k)%nat ∧
    "Energy" = as_is (default EmptyString (td_topic td)) ∧
    ["Phys"; "Phys"] !! 1%nat
      = Some (strip_or as_is (default EmptyString (td_course td))
                ("Subject " +:+ pretty (k + 1)%nat)) ∧
    ["hard"; "hard"] !! 1%nat
      = Some (as_is (default "medium" (td_difficulty td))).
Proof.
  apply (extracted_entry_origin as_is as_is ann_topics ["Phys"; "Phys"]
           ["Motion"; "Energy"] ["hard"; "hard"] 1 "Energy");
    reflexivity.
Defined.

(** X11. For a header "Bearer t" where [t] has no space,
    [get_user_from_token] looks up [t] in [user_by_id]; what follows a
    space after [t] is not read. A header that does not start with
    "Bearer " gives no user. *)
Theorem bearer_token_read t rest st :
  no_space t = true →
  get_user_from_token (Some ("Bearer " +:+ t)) st
    = pair t <$> user_by_id st !! t ∧
  get_user_from_token (Some ("Bearer " +:+ t +:+ String Ascii.Space rest)) st
    = pair t <$> user_by_id st !! t ∧
  ∀ h, String.prefix "Bearer " h = false →
    get_user_from_token (Some h) st = None.
Proof.
  intros Ht. destruct (split_space_token t rest Ht) as [Hone Hmore].
  unfold get_user_from_token, token_of. split; [|split].
  - rewrite prefix_bearer, split_space_bearer, Hone. simpl.
    by destruct (user_by_id st !! t).
  - rewrite prefix_bearer, split_space_bearer, Hmore. simpl.
    by destruct (user_by_id st !! t).
  - by intros h ->.
Qed.

Lemma bearer_token_read_witness :
  no_space "u-1" = true ∧
  get_user_from_token (Some ("Bearer " +:+ "u-1")) ann_store
    = pair "u-1" <$> user_by_id ann_store !! "u-1" ∧
  get_user_from_token
    (Some ("Bearer " +:+ "u-1" +:+ String Ascii.Space "and more")) ann_store
    = pair "u-1" <$> user_by_id ann_store !! "u-1" ∧
  ∀ h, String.prefix "Bearer " h = false →
    get_user_from_token (Some h) ann_store = None.
Proof.
  split; [reflexivity|].
  apply (bearer_token_read "u-1" "and more" ann_store). reflexivity.
Defined.

Lemma plans_of_insert st uid uid' l users :
  plans_of {| user_by_id := users;
              plans_store := <[uid := l]> (plans_store st) |} uid'
  = if decide (uid = uid') then l else plans_of st uid'.
Proof.
  unfold plans_of. simpl. destruct (decide (uid = uid')) as [->|Hne].
  - by rewrite lookup_insert_eq.
  - by rewrite lookup_insert_ne.
Qed.

(** How [update_progress] comes to answer 200. *)
Lemma update_progress_updated auth_header data st pid i done spent st' :
  update_progress auth_header data st
    = (ProgressUpdated pid i done spent, st') →
  ∃ token u rq k doc,
    get_user_from_token auth_header st = Some (token, u) ∧
    data = Some rq ∧
    pr_plan_id rq = Some pid ∧ pid ≠ EmptyString ∧
    pr_task_index rq = Some i ∧
    done = default false (pr_completed rq) ∧
    spent = default 0 (pr_time_spent rq) ∧
    list_find (λ p, plan_id p = pid) (plans_of st (user_id u))
      = Some (k, doc) ∧
    0 ≤ i < Z.of_nat (length (pd_plan doc)) ∧
    st' = {| user_by_id :=
               <[token := count_progress done spent u]> (user_by_id st);
             plans_store :=
               <[user_id u :=
                   <[k := with_progress done spent (Z.to_nat i) doc]>
                     (plans_of st (user_id u))]> (plans_store st) |}.
Proof.
  unfold update_progress.
  destruct (get_user_from_token auth_header st) as [[token u]|]; [|done].
  destruct data as [rq|]; [|done].
  destruct (pr_plan_id rq) as [pid'|] eqn:Hpid; [|done].
  destruct (pr_task_index rq) as [i'|] eqn:Hi; [|done].
  destruct (decide (pid' = EmptyString)) as [|Hne]; [done|].
  destruct (list_find _ _) as [[k doc]|] eqn:Hfind; [|done].
  destruct (decide (0 ≤ i' < _)) as [Hrange|]; [|done].
  intros [= <- <- <- <- <-]. exists token, u, rq, k, doc.
  by repeat (split; [done|]).
Qed.


(** Writing a plan with the same identifier back where the first match
    was leaves it the first match. *)
Lemma list_find_plan_insert pid (l : list plan_doc) k doc doc' :
  list_find (λ p, plan_id p = pid) l = Some (k, doc) →
  plan_id doc' = pid →
  list_find (λ p, plan_id p = pid) (<[k := doc']> l) = Some (k, doc').
Proof.
  intros (Hk & _ & Hleast)%list_find_Some Hid.
  apply list_find_insert_Some. right. left.
  repeat split; [by eapply lookup_lt_Some|done|exact Hleast].
Qed.

(** The same user is found after a handler wrote the user dict back. *)
Lemma get_user_after auth_header st token u u' plans :
  get_user_from_token auth_header st = Some (token, u) →
  get_user_from_token auth_header
    {| user_by_id := <[token := u']> (user_by_id st); plans_store := plans |}
  = Some (token, u').
Proof.
  unfold get_user_from_token.
  destruct (token_of auth_header) as [t|]; [|done].
  destruct (user_by_id st !! t) as [u0|]; [|done].
  intros [= -> ->]. simpl. by rewrite lookup_insert_eq.
Qed.




(** X14. When the quota of the request is positive, and so when the
    request has no [daily_hours] at all, [generate_plan] answers, and not
    with a 500. *)
Theorem plan_request_answered (strip lower : string → string)
    auth_header rq new_id now st q :
  daily_quota_of (default (Number 2) (rq_daily_hours rq)) = inr q → 0 < q →
  ∃ fuel r st',
    generate_plan strip lower fuel auth_header (Some rq) new_id now st
      = Some (r, st') ∧
    ∀ msg, r ≠ ErrorResponse 500 msg.
Proof.
  intros Hquota Hq.
  exists (enough_fuel q
            (extract_topics strip lower 0 (default [] (rq_topics rq))).1.2).
  unfold generate_plan.
  destruct (get_user_from_token auth_header st) as [[token u]|];
    [|by eexists _, _].
  destruct (empty_request rq); [by eexists _, _|].
  destruct (default [] (rq_topics rq)) as [|td tds]; [by eexists _, _|].
  destruct (extract_topics strip lower 0 (td :: tds))
    as [[courses topics] difficulties].
  destruct topics as [|tpc topics]; [by eexists _, _|]. simpl.
  destruct (run_plan_terminates (enough_fuel q (tpc :: topics)) courses
              (tpc :: topics) difficulties _ q Hquota Hq) as [s Hrun];
    [done|].
  assert (generate_simple_plan (enough_fuel q (tpc :: topics)) courses
            (tpc :: topics) difficulties
            (default (Number 2) (rq_daily_hours rq)) = Returns (plan s))
    as Hplan.
  { apply generate_simple_plan_returns. by exists s. }
  rewrite Hplan.
  assert (plan s ≠ []) as Hnonempty.
  { eapply generate_simple_plan_nonempty; [|exact Hplan]. done. }
  destruct (plan s); [done|]. by eexists _, _.
Qed.

Lemma plan_request_answered_witness :
  daily_quota_of (default (Number 2) None) = inr 120 ∧ 0 < 120 ∧
  ∃ fuel r st',
    generate_plan as_is as_is fuel (Some "Bearer u-1")
      (Some {| rq_student_name := None; rq_exam_date := None;
               rq_daily_hours := None; rq_topics := Some ann_topics;
               rq_other_keys := false |})
      "p-1" "2025-01-16T09:00:00" ann_store
      = Some (r, st') ∧
    ∀ msg, r ≠ ErrorResponse 500 msg.
Proof.
  split; [reflexivity|]. split; [lia|].
  apply (plan_request_answered as_is as_is (Some "Bearer u-1")
           {| rq_student_name := None; rq_exam_date := None;
              rq_daily_hours := None; rq_topics := Some ann_topics;
              rq_other_keys := false |}
           "p-1" "2025-01-16T09:00:00" ann_store 120); [reflexivity|lia].
Defined.

(** X15. For a user that is logged in and a request with a topic that is
    not blank, [generate_plan] never answers when the quota of the request
    is 0 or less: the loop of [generate_simple_plan] does not stop. *)
Theorem nonpositive_hours_request_hangs (strip lower : string → string)
    fuel auth_header rq new_id now st token u courses topics difficulties q :
  get_user_from_token auth_header st = Some (token, u) →
  extract_topics strip lower 0 (default [] (rq_topics rq))
    = (courses, topics, difficulties) →
  topics ≠ [] →
  daily_quota_of (default (Number 2) (rq_daily_hours rq)) = inr q → q ≤ 0 →
  generate_plan strip lower fuel auth_header (Some rq) new_id now st = None.
Proof.
  intros Huser Hextract Hne Hquota Hq. unfold generate_plan. rewrite Huser.
  destruct (rq_topics rq) as [tds|] eqn:Htopics;
    [|simpl in Hextract; by injection Hextract as <- <- <-].
  assert (empty_request rq = false) as ->.
  { unfold empty_request. rewrite Htopics. by repeat case_match. }
  change (default [] (Some tds)) with tds in *. destruct tds as [|td tds].
  { simpl in Hextract. by injection Hextract as <- <- <-. }
  rewrite Hextract. destruct topics as [|tpc topics]; [done|].
  by rewrite (generate_simple_plan_diverges _ _ _ _ _ q).
Qed.

Lemma nonpositive_hours_request_hangs_witness :
  generate_plan as_is as_is 1000 (Some "Bearer u-1")
    (Some {| rq_student_name := None; rq_exam_date := None;
             rq_daily_hours := Some (Number 0);
             rq_topics := Some ann_topics; rq_other_keys := false |})
    "p-1" "2025-01-16T09:00:00" ann_store
  = None.
Proof.
  apply (nonpositive_hours_request_hangs as_is as_is 1000
           (Some "Bearer u-1")
           {| rq_student_name := None; rq_exam_date := None;
              rq_daily_hours := Some (Number 0);
              rq_topics := Some ann_topics; rq_other_keys := false |}
           "p-1" "2025-01-16T09:00:00" ann_store "u-1" ann
           ["Phys"; "Phys"] ["Motion"; "Energy"] ["hard"; "hard"] 0);
    [reflexivity|reflexivity|done|reflexivity|lia].
Defined.



(** X17. A plan that [generate_plan] has just stored is the plan that
    [get_plan] returns to the same user for the identifier of the answer,
    provided none of the user's earlier plans has that identifier. *)
Theorem created_plan_can_be_read (strip lower : string → string)
    fuel auth_header data new_id now st pid student exam dh p n d st'
    token u :
  generate_plan strip lower fuel auth_header data new_id now st
    = Some (PlanCreated pid student exam dh p n d, st') →
  get_user_from_token auth_header st = Some (token, u) →
  Forall (λ doc, plan_id doc ≠ new_id) (plans_of st (user_id u)) →
  ∃ doc, get_plan auth_header pid st' = PlanFound doc ∧
    plan_id doc = pid ∧ pd_user_id doc = user_id u ∧
    map task_chunk (pd_plan doc) = p.
Proof.
  intros (token' & u' & rq & cs & ts & ds & Huser & _ & _ & _ & _ & _ & _ &
          -> & _ & _ & ->)%generate_plan_created Huser' Hfresh.
  assert (token' = token ∧ u' = u) as [-> ->] by (split; congruence).
  unfold get_plan. rewrite (get_user_after _ _ _ _ _ _ Huser).
  change (user_id (count_plan u)) with (user_id u).
  rewrite plans_of_insert, decide_True by done.
  rewrite list_find_app_r by (by apply list_find_None).
  simpl. rewrite decide_True by done. simpl. eexists. split; [done|].
  simpl. repeat split. rewrite <- list_fmap_compose. apply list_fmap_id.
Qed.

Lemma created_plan_can_be_read_witness :
  Forall (λ doc, plan_id doc ≠ "p-1") (plans_of ann_store (user_id ann)) ∧
  ∃ doc, get_plan (Some "Bearer u-1") "p-1" ann_store_1 = PlanFound doc ∧
    plan_id doc = "p-1" ∧ pd_user_id doc = user_id ann ∧
    map task_chunk (pd_plan doc) = phys_plan.
Proof.
  split; [constructor|].
  apply (created_plan_can_be_read as_is as_is 2 (Some "Bearer u-1")
           (Some ann_request) "p-1" "2025-01-16T09:00:00" ann_store "p-1"
           "Ann" "2025-06-01" (Number 1) phys_plan 2 2 ann_store_1 "u-1"
           ann);
    [vm_compute; reflexivity|vm_compute; reflexivity|constructor].
Defined.

(** X18. [get_plan] returns only a plan that is stored under the [user_id]
    of the user the header names, and it is the first of that user's plans
    with the identifier asked for. *)
Theorem get_plan_only_own_plans auth_header pid st doc :
  get_plan auth_header pid st = PlanFound doc →
  ∃ token u k,
    get_user_from_token auth_header st = Some (token, u) ∧
    plans_of st (user_id u) !! k = Some doc ∧ plan_id doc = pid ∧
    ∀ j other, plans_of st (user_id u) !! j = Some other → (j < k)%nat →
      plan_id other ≠ pid.
Proof.
  unfold get_plan.
  destruct (get_user_from_token auth_header st) as [[token u]|]; [|done].
  destruct (list_find _ _) as [[k doc']|] eqn:Hfind; [|done].
  intros [= ->]. apply list_find_Some in Hfind as (Hk & Hid & Hleast).
  by exists token, u, k.
Qed.

Lemma get_plan_only_own_plans_witness :
  ∃ token u k,
    get_user_from_token (Some "Bearer u-1") ann_store_1 = Some (token, u) ∧
    plans_of ann_store_1 (user_id u) !! k = Some ann_doc ∧
    plan_id ann_doc = "p-1" ∧
    ∀ j other, plans_of ann_store_1 (user_id u) !! j = Some other →
      (j < k)%nat → plan_id other ≠ "p-1".
Proof.
  apply (get_plan_only_own_plans (Some "Bearer u-1") "p-1" ann_store_1
           ann_doc).
  vm_compute. reflexivity.
Defined.

(** X19. When [update_progress] answers 200 it has rewritten one task of
    one plan of the user: the plan is the first with the identifier of the
    request, its other tasks and the chunk of the task are as they were,
    and the task has the [completed] and [time_spent] of the request. The
    user's other plans and the plans of other users are as they were. *)
Theorem progress_update_frame auth_header data st pid i done spent st'
    token u :
  update_progress auth_header data st
    = (ProgressUpdated pid i done spent, st') →
  get_user_from_token auth_header st = Some (token, u) →
  ∃ k doc doc' t,
    list_find (λ p, plan_id p = pid) (plans_of st (user_id u))
      = Some (k, doc) ∧
    plans_of st' (user_id u) = <[k := doc']> (plans_of st (user_id u)) ∧
    plan_id doc' = pid ∧
    pd_plan doc !! Z.to_nat i = Some t ∧
    pd_plan doc' !! Z.to_nat i
      = Some {| task_chunk := task_chunk t; completed := done;
                time_spent := spent |} ∧
    (∀ m, m ≠ Z.to_nat i → pd_plan doc' !! m = pd_plan doc !! m) ∧
    length (pd_plan doc') = length (pd_plan doc) ∧
    ∀ uid, uid ≠ user_id u → plans_of st' uid = plans_of st uid.
Proof.
  intros (token' & u' & rq & k & doc & Huser & _ & _ & _ & _ & _ & _ &
          Hfind & Hrange & ->)%update_progress_updated Huser'.
  assert (token' = token ∧ u' = u) as [-> ->] by (split; congruence).
  destruct (lookup_lt_is_Some_2 (pd_plan doc) (Z.to_nat i)) as [t Ht];
    [lia|].
  exists k, doc, (with_progress done spent (Z.to_nat i) doc), t.
  split; [done|]. split.
  { by rewrite plans_of_insert, decide_True. }
  split. { by apply list_find_Some in Hfind as (_ & ? & _). }
  split; [done|]. simpl. split.
  { by rewrite list_lookup_alter_eq, Ht. }
  split. { intros m Hm. by rewrite list_lookup_alter_ne. }
  split; [apply length_alter|].
  intros uid Hne. by rewrite plans_of_insert, decide_False.
Qed.

Lemma progress_update_frame_witness :
  ∃ k doc doc' t,
    list_find (λ p, plan_id p = "p-1") (plans_of ann_store_1 (user_id (count_plan ann)))
      = Some (k, doc) ∧
    plans_of ann_store_2 (user_id (count_plan ann))
      = <[k := doc']> (plans_of ann_store_1 (user_id (count_plan ann))) ∧
    plan_id doc' = "p-1" ∧
    pd_plan doc !! Z.to_nat 1 = Some t ∧
    pd_plan doc' !! Z.to_nat 1
      = Some {| task_chunk := task_chunk t; completed := true;
                time_spent := 25 |} ∧
    (∀ m, m ≠ Z.to_nat 1 → pd_plan doc' !! m = pd_plan doc !! m) ∧
    length (pd_plan doc') = length (pd_plan doc) ∧
    ∀ uid, uid ≠ user_id (count_plan ann) →
      plans_of ann_store_2 uid = plans_of ann_store_1 uid.
Proof.
  apply (progress_update_frame (Some "Bearer u-1") (Some ann_progress)
           ann_store_1 "p-1" 1 true 25 ann_store_2 "u-1" (count_plan ann));
    vm_compute; reflexivity.
Defined.

(** X20. After [update_progress] answered 200, [get_plan] returns to the
    same user, for the same identifier, a plan whose task at the index of
    the request has the [completed] and [time_spent] of the request. *)
Theorem updated_task_can_be_read auth_header data st pid i done spent st' :
  update_progress auth_header data st
    = (ProgressUpdated pid i done spent, st') →
  ∃ doc t, get_plan auth_header pid st' = PlanFound doc ∧
    pd_plan doc !! Z.to_nat i = Some t ∧
    completed t = done ∧ time_spent t = spent.
Proof.
  intros (token & u & rq & k & doc & Huser & _ & _ & _ & _ & _ & _ &
          Hfind & Hrange & ->)%update_progress_updated.
  unfold get_plan. rewrite (get_user_after _ _ _ _ _ _ Huser).
  change (user_id (count_progress done spent u)) with (user_id u).
  rewrite plans_of_insert, decide_True by done.
  rewrite (list_find_plan_insert _ _ _ _ _ Hfind);
    [|by apply list_find_Some in Hfind as (_ & ? & _)].
  destruct (lookup_lt_is_Some_2 (pd_plan doc) (Z.to_nat i)) as [t Ht];
    [lia|].
  eexists _, _. split; [done|]. simpl.
  rewrite list_lookup_alter_eq, Ht. by simpl.
Qed.

Lemma updated_task_can_be_read_witness :
  ∃ doc t, get_plan (Some "Bearer u-1") "p-1" ann_store_2 = PlanFound doc ∧
    pd_plan doc !! Z.to_nat 1 = Some t ∧
    completed t = true ∧ time_spent t = 25.
Proof.
  apply (updated_task_can_be_read (Some "Bearer u-1") (Some ann_progress)
           ann_store_1 "p-1" 1 true 25 ann_store_2).
  vm_compute. reflexivity.
Defined.

Lemma alter_set_progress_twice done spent (tasks : list task) : ∀ i,
  alter (set_progress done spent) i (alter (set_progress done spent) i tasks)
  = alter (set_progress done spent) i tasks.
Proof.
  induction tasks as [|t tasks IH]; intros [|i]; simpl; try done.
  f_equal. apply IH.
Qed.

Lemma with_progress_twice done spent i doc :
  with_progress done spent i (with_progress done spent i doc)
  = with_progress done spent i doc.
Proof.
  unfold with_progress. simpl. by rewrite alter_set_progress_twice.
Qed.

Lemma completed_count_cons t (tasks : list task) :
  completed_count (t :: tasks)
  = ((if completed t then 1 else 0) + completed_count tasks)%nat.
Proof.
  unfold completed_count. rewrite filter_cons.
  by destruct (completed t); simpl.
Qed.

Lemma completed_count_le (tasks : list task) :
  (completed_count tasks ≤ length tasks)%nat.
Proof. apply length_filter. Qed.

(** What rewriting a task does to the number of completed tasks. *)
Lemma completed_count_alter done spent (tasks : list task) : ∀ i t,
  tasks !! i = Some t →
  (completed_count (alter (set_progress done spent) i tasks)
   + (if completed t then 1 else 0)
   = completed_count tasks + (if done then 1 else 0))%nat.
Proof.
  induction tasks as [|t0 tasks IH]; intros [|i] t; simpl; try done.
  - intros [= ->]. rewrite !completed_count_cons. simpl.
    destruct done, (completed t); lia.
  - intros Hi. rewrite !completed_count_cons.
    specialize (IH _ _ Hi).
    change (list_alter (set_progress done spent) i tasks)
      with (alter (set_progress done spent) i tasks).
    destruct (completed t0), (completed t), done; lia.
Qed.

(** What writing one plan back does to a sum over the plans. *)
Lemma sum_plans_insert (f : plan_doc → nat) (l : list plan_doc) : ∀ k doc doc',
  l !! k = Some doc →
  (foldr (λ d n, f d + n) 0 (<[k := doc']> l) + f doc
   = foldr (λ d n, f d + n) 0 l + f doc')%nat.
Proof.
  induction l as [|d l IH]; intros [|k] doc doc'; simpl; try done.
  - intros [= ->]. lia.
  - intros Hk. specialize (IH _ _ doc' Hk). lia.
Qed.

(** X21. [update_progress] counts reports, not tasks: when a report with
    [completed] true was accepted, the same report is accepted again, the
    stored plans are then what they were after the first, but the user's
    [completed_topics] has grown by two and [total_study_time] by twice the
    time of the report. *)
Theorem repeated_completion_counts_twice auth_header data st pid i spent
    st1 token u :
  update_progress auth_header data st
    = (ProgressUpdated pid i true spent, st1) →
  get_user_from_token auth_header st = Some (token, u) →
  ∃ st2 u2,
    update_progress auth_header data st1
      = (ProgressUpdated pid i true spent, st2) ∧
    plans_store st2 = plans_store st1 ∧
    user_by_id st2 !! token = Some u2 ∧
    completed_topics u2 = completed_topics u + 2 ∧
    total_study_time u2 = total_study_time u + 2 * spent.
Proof.
  intros (token' & u' & rq & k & doc & Huser & -> & Hpid & Hne & Hi & Hdone &
          Hspent & Hfind & Hrange & ->)%update_progress_updated Huser'.
  assert (token' = token ∧ u' = u) as [-> ->] by (split; congruence).
  unfold update_progress at 1.
  rewrite (get_user_after _ _ _ _ _ _ Huser), Hpid, Hi, <- Hdone, <- Hspent.
  rewrite decide_False by done.
  change (user_id (count_progress true spent u)) with (user_id u).
  rewrite plans_of_insert, decide_True by done.
  rewrite (list_find_plan_insert _ _ _ _ _ Hfind);
    [|by apply list_find_Some in Hfind as (_ & ? & _)].
  simpl length. rewrite length_alter, decide_True by done.
  eexists _, _. split; [reflexivity|]. simpl.
  split; [|split; [apply lookup_insert_eq|split; simpl; lia]].
  by rewrite insert_insert_eq, list_insert_insert_eq, with_progress_twice.
Qed.

Lemma repeated_completion_counts_twice_witness :
  ∃ st2 u2,
    update_progress (Some "Bearer u-1") (Some ann_progress) ann_store_2
      = (ProgressUpdated "p-1" 1 true 25, st2) ∧
    plans_store st2 = plans_store ann_store_2 ∧
    user_by_id st2 !! "u-1" = Some u2 ∧
    completed_topics u2 = completed_topics (count_plan ann) + 2 ∧
    total_study_time u2 = total_study_time (count_plan ann) + 2 * 25.
Proof.
  apply (repeated_completion_counts_twice (Some "Bearer u-1")
           (Some ann_progress) ann_store_1 "p-1" 1 25 ann_store_2 "u-1"
           (count_plan ann));
    vm_compute; reflexivity.
Defined.

(** X22. In the answer of [get_dashboard] the completed tasks are at most
    the tasks, every plan counts as active, and [recent_plans] has at most
    five lines, one for each of the first plans of the user, each with at
    most as many completed tasks as tasks. *)
Theorem dashboard_counts_bounded auth_header st u study_time topics_done
    total_plans active_plans total_tasks completed_tasks recent :
  get_dashboard auth_header st
    = DashboardStats u study_time topics_done total_plans active_plans
        total_tasks completed_tasks recent →
  (completed_tasks ≤ total_tasks)%nat ∧ active_plans = total_plans ∧
  length recent = (total_plans `min` 5)%nat ∧
  Forall (λ r, (rp_completed_tasks r ≤ rp_total_tasks r)%nat) recent.
Proof.
  unfold get_dashboard.
  destruct (get_user_from_token auth_header st) as [[token u']|]; [|done].
  intros [= _ _ _ <- <- <- <- <-]. split; [|split; [done|split]].
  - induction (plans_of st (user_id u')) as [|doc l IH]; simpl; [lia|].
    pose proof (completed_count_le (pd_plan doc)). lia.
  - rewrite length_map, length_take. lia.
  - apply Forall_fmap, Forall_forall. intros doc _. simpl.
    apply completed_count_le.
Qed.

Lemma dashboard_counts_bounded_witness :
  (1 ≤ 3)%nat ∧ 1%nat = 1%nat ∧
  length [ {| rp_plan_id := "p-1"; rp_student_name := "Ann";
              rp_created_at := "2025-01-16T09:00:00"; rp_total_tasks := 3;
              rp_completed_tasks := 1; rp_daily_hours := Number 1 |} ]
    = (1 `min` 5)%nat ∧
  Forall (λ r, (rp_completed_tasks r ≤ rp_total_tasks r)%nat)
    [ {| rp_plan_id := "p-1"; rp_student_name := "Ann";
         rp_created_at := "2025-01-16T09:00:00"; rp_total_tasks := 3;
         rp_completed_tasks := 1; rp_daily_hours := Number 1 |} ].
Proof.
  apply (dashboard_counts_bounded (Some "Bearer u-1") ann_store_2
           (count_progress true 25 (count_plan ann)) 25 1 1 1 3 1).
  vm_compute. reflexivity.
Defined.

(** X23. When [update_progress] accepted a report with [completed] true
    for a task that was not completed, the dashboard of the user then
    counts one completed task more, the same number of plans and tasks,
    one completed topic more and the time of the report more. *)
Theorem completing_task_raises_dashboard auth_header data st pid i spent
    st' token u k doc t :
  update_progress auth_header data st
    = (ProgressUpdated pid i true spent, st') →
  get_user_from_token auth_header st = Some (token, u) →
  list_find (λ p, plan_id p = pid) (plans_of st (user_id u))
    = Some (k, doc) →
  pd_plan doc !! Z.to_nat i = Some t → completed t = false →
  ∃ u1 total_plans total_tasks completed_tasks recent recent',
    get_dashboard auth_header st
      = DashboardStats u (total_study_time u) (completed_topics u)
          total_plans total_plans total_tasks completed_tasks recent ∧
    get_dashboard auth_header st'
      = DashboardStats u1 (total_study_time u + spent)
          (completed_topics u + 1) total_plans total_plans total_tasks
          (S completed_tasks) recent'.
Proof.
  intros (token' & u' & rq & k' & doc' & Huser & _ & _ & _ & _ & _ & _ &
          Hfind & Hrange & ->)%update_progress_updated Huser' Hfind' Ht Hopen.
  assert (token' = token ∧ u' = u) as [-> ->] by (split; congruence).
  assert (k' = k ∧ doc' = doc) as [-> ->] by (split; congruence).
  unfold get_dashboard. rewrite (get_user_after _ _ _ _ _ _ Huser), Huser.
  change (user_id (count_progress true spent u)) with (user_id u).
  rewrite plans_of_insert, decide_True by done.
  apply list_find_Some in Hfind as (Hk & _ & _).
  pose proof (sum_plans_insert (λ d, length (pd_plan d)) _ _ _
                (with_progress true spent (Z.to_nat i) doc) Hk) as Hlen.
  pose proof (sum_plans_insert (λ d, completed_count (pd_plan d)) _ _ _
                (with_progress true spent (Z.to_nat i) doc) Hk) as Hcount.
  pose proof (completed_count_alter true spent _ _ _ Ht) as Halter.
  rewrite Hopen in Halter. simpl in Hlen, Hcount.
  rewrite length_alter in Hlen.
  eexists _, _, _, _, _, _. split; [reflexivity|].
  rewrite length_insert. simpl. f_equal; lia.
Qed.

Lemma completing_task_raises_dashboard_witness :
  ∃ u1 total_plans total_tasks completed_tasks recent recent',
    get_dashboard (Some "Bearer u-1") ann_store_1
      = DashboardStats (count_plan ann) (total_study_time (count_plan ann))
          (completed_topics (count_plan ann))
          total_plans total_plans total_tasks completed_tasks recent ∧
    get_dashboard (Some "Bearer u-1") ann_store_2
      = DashboardStats u1 (total_study_time (count_plan ann) + 25)
          (completed_topics (count_plan ann) + 1) total_plans total_plans
          total_tasks (S completed_tasks) recent'.
Proof.
  apply (completing_task_raises_dashboard (Some "Bearer u-1")
           (Some ann_progress) ann_store_1 "p-1" 1 25 ann_store_2 "u-1"
           (count_plan ann) 0%nat ann_doc
           {| task_chunk := phys_chunk "Day 1" "Energy" 20 None;
              completed := false; time_spent := 0 |});
    vm_compute; reflexivity.
Defined.

Lemma pick_hint_generic level :
  pick_hint level = "Stay focused! ⭐" ↔
  level ≠ "easy" ∧ level ≠ "medium" ∧ level ≠ "hard".
Proof.
  split.
  - intros Hhint. repeat split; intros ->; by vm_compute in Hhint.
  - intros (Heasy & Hmedium & Hhard). unfold pick_hint, hints.
    rewrite !lookup_insert_ne by done. by rewrite lookup_singleton_ne.
Qed.

(** X24. Every chunk of a returned plan carries the hint [pick_hint] gives
    for its own difficulty, and that is the generic hint exactly when the
    difficulty is none of "easy", "medium" and "hard". *)
Theorem chunk_hint_by_difficulty fuel courses topics difficulties
    daily_hours p :
  generate_simple_plan fuel courses topics difficulties daily_hours
    = Returns p →
  Forall (λ c,
    ai_hint c = pick_hint (difficulty c) ∧
    (ai_hint c = "Stay focused! ⭐" ↔
     difficulty c ≠ "easy" ∧ difficulty c ≠ "medium" ∧
     difficulty c ≠ "hard")) p.
Proof.
  intros Hp.
  destruct (proj1 (generate_simple_plan_returns _ _ _ _ _ _) Hp)
    as (st & Hrun & Hplan).
  destruct (run_plan_returns_cases _ _ _ _ _ _ Hrun)
    as (q & Hquota & [[_ Hnil]|[_ Hq]]).
  { rewrite <- Hplan, Hnil. constructor. }
  destruct (plan_blocks _ _ _ _ _ _ _ Hquota Hq Hp)
    as (_ & blocks & _ & _ & _ & -> & Hlen & Hblocks).
  apply Forall_concat, Forall_lookup. intros i blk Hi.
  destruct (lookup_lt_is_Some_2 topics i) as [tpc Htpc].
  { rewrite <- Hlen. by eapply lookup_lt_Some. }
  destruct (Hblocks i tpc Htpc) as (blk' & Hblk' & Hall & _).
  assert (blk' = blk) as -> by congruence.
  eapply Forall_impl; [exact Hall|]. simpl.
  intros c (_ & _ & Hlevel & Hhint). rewrite Hhint, Hlevel.
  split; [done|]. apply pick_hint_generic.
Qed.

Lemma chunk_hint_by_difficulty_witness :
  Forall (λ c,
    ai_hint c = pick_hint (difficulty c) ∧
    (ai_hint c = "Stay focused! ⭐" ↔
     difficulty c ≠ "easy" ∧ difficulty c ≠ "medium" ∧
     difficulty c ≠ "hard")) phys_plan.
Proof.
  apply (chunk_hint_by_difficulty 2 phys_courses phys_topics phys_levels
           (Number 1)).
  vm_compute. reflexivity.
Defined.

(** X25. In a 201 answer of [generate_plan], [total_topics] is the number
    of topics of the request that are not blank, [total_days] is the day
    number of the last chunk of the plan, and the plan has at least one
    chunk per topic and at most [total_topics + total_days - 1] chunks. *)
Theorem created_plan_summary (strip lower : string → string)
    fuel auth_header rq new_id now st pid student exam dh p n d st' :
  generate_plan strip lower fuel auth_header (Some rq) new_id now st
    = Some (PlanCreated pid student exam dh p n d, st') →
  n = length (filter (λ t, t ≠ EmptyString)
                (map (λ td, strip (default EmptyString (td_topic td)))
                   (default [] (rq_topics rq)))) ∧
  last (map day p) = Some (day_label (Z.of_nat d)) ∧
  (1 ≤ n ≤ length p)%nat ∧ (length p ≤ n + d - 1)%nat.
Proof.
  intros (token & u & rq' & cs & ts & ds & _ & [= <-] & Hextract & Hne &
          -> & Hp & _ & _ & -> & -> & _)%generate_plan_created.
  pose proof (extract_topics_shape strip lower (default [] (rq_topics rq)) 0)
    as Hshape. cbv zeta in Hshape. rewrite Hextract in Hshape.
  destruct Hshape as (_ & _ & _ & _ & _ & Hfilter). simpl in Hfilter.
  split; [by rewrite Hfilter|].
  destruct (proj1 (generate_simple_plan_returns _ _ _ _ _ _) Hp)
    as (s & Hrun & Hplan).
  destruct (run_plan_returns_cases _ _ _ _ _ _ Hrun)
    as (q & Hquota & [[? _]|[_ Hq]]); [done|].
  destruct (plan_days _ _ _ _ _ _ _ Hquota Hq Hp)
    as (s' & blocks & Hrun' & _ & Hcat & Hblocks & _ & Hcount).
  assert (s' = s) as -> by congruence.
  destruct (run_plan_packed _ _ _ _ _ _ _ Hquota Hq Hrun) as [Hinv Hpacked].
  apply blocks_spec_length in Hblocks. rewrite <- Hcat in Hblocks.
  assert (plan s ≠ []) as Hnonempty.
  { rewrite Hplan. destruct ts; [done|].
    destruct p; [simpl in *; lia|done]. }
  destruct (packed_last _ _ Hpacked Hnonempty) as [Hlast _].
  pose proof (packed_days _ _ Hpacked Hnonempty) as Hdays.
  pose proof (day_no_pos _ _ Hinv) as Hday.
  assert (total_days p = Z.to_nat (day_no s)) as Htotal.
  { unfold total_days. rewrite <- Hplan, Hdays, size_list_to_set.
    - by rewrite length_map, length_seqZ.
    - apply NoDup_fmap_2; [|apply NoDup_seqZ].
      intros a b. apply day_label_inj. }
  rewrite Htotal, Z2Nat.id by lia. rewrite <- Hplan at 1.
  split; [done|]. destruct ts; [done|]. simpl in *. lia.
Qed.

Lemma created_plan_summary_witness :
  2%nat = length (filter (λ t, t ≠ EmptyString)
                    (map (λ td, as_is (default EmptyString (td_topic td)))
                       (default [] (rq_topics ann_request)))) ∧
  last (map day phys_plan) = Some (day_label (Z.of_nat 2)) ∧
  (1 ≤ 2 ≤ length phys_plan)%nat ∧ (length phys_plan ≤ 2 + 2 - 1)%nat.
Proof.
  apply (created_plan_summary as_is as_is 2 (Some "Bearer u-1") ann_request
           "p-1" "2025-01-16T09:00:00" ann_store "p-1" "Ann" "2025-06-01"
           (Number 1) phys_plan 2 2 ann_store_1).
  vm_compute. reflexivity.
Defined.
